(** * FieldIO: plotfile and point-cloud export of an MD particle container

    A shallow embedding of [src/exec/NeighborList/FieldIO.cpp]
    ([WritePlotFile] and [WriteParticlesVTK]) and the properties of its
    output that the specification of the export layer states. *)

From Stdlib Require Import ZArith Lia Ascii String.
From stdpp Require Import base option list list_numbers strings pretty gmap.

(** ** Machine integers *)

(** C++ [int]: 32 bits, two's complement.  A conversion from a wider type
    keeps the value modulo 2^32. *)
Module Int.
Definition min_signed : Z := (- 2 ^ 31)%Z.
Definition max_signed : Z := (2 ^ 31 - 1)%Z.
Definition wrap (z : Z) : Z := ((z + 2 ^ 31) `mod` 2 ^ 32 - 2 ^ 31)%Z.
Definition sub (a b : Z) : Z := wrap (a - b).
End Int.

(** [amrex::Long]: 64 bits, two's complement. *)
Module Long.
Definition min_signed : Z := (- 2 ^ 63)%Z.
Definition max_signed : Z := (2 ^ 63 - 1)%Z.
Definition wrap (z : Z) : Z := ((z + 2 ^ 63) `mod` 2 ^ 64 - 2 ^ 63)%Z.
Definition add (a b : Z) : Z := wrap (a + b).
Definition mul (a b : Z) : Z := wrap (a * b).
End Long.

(** ** Text streams *)

(** The newline character, written ["\n"] in the source. *)
Definition endl : string := String (Ascii.ascii_of_nat 10) EmptyString.

(** An output stream is the text written to it so far; [ofs << s] appends. *)
Definition ostream : Type := string.
Definition put (ofs : ostream) (s : string) : ostream := ofs +:+ s.
Infix "<<" := put (at level 50, left associativity).

(** The text of a sequence of newline-terminated lines. *)
Fixpoint unlines (ls : list string) : string :=
  match ls with
  | [] => EmptyString
  | l :: ls => l +:+ endl +:+ unlines ls
  end.

(** [std::setw(w) << std::setfill(c) << s]: the field is filled on the left
    up to width [w]; a longer field is written as it is. *)
Fixpoint fill (n : nat) (c : ascii) : string :=
  match n with
  | O => EmptyString
  | S n => String c (fill n c)
  end.

Definition setw_setfill (w : nat) (c : ascii) (s : string) : string :=
  fill (w - String.length s) c +:+ s.

(** Modelled from the spec: [amrex::Concatenate] is AMReX library code, not
    part of the repository's sources.  The spec describes its result as the
    literal tag followed by the step index as a fixed-width, zero-padded
    decimal; in the library this is
    [root << std::setw(mindigits) << std::setfill('0') << num]. *)
Definition Concatenate (root : string) (num : Z) (mindigits : nat) : string :=
  root +:+ setw_setfill mindigits "0"%char (pretty num).

(** ** The process environment *)

(** What an export call can see and change outside its arguments: the
    notices printed so far, the files on disk, and which file names can be
    opened for writing. *)
Record World := mkWorld {
  stdout : list string;
  files : gmap string string;
  writable : string → bool
}.

(** Modelled from the spec: [amrex::Print() << ...] is AMReX library code; the
    spec describes it as a single-line diagnostic notice on standard output. *)
Definition Print (msg : string) (w : World) : World :=
  {| stdout := stdout w ++ [msg]; files := files w; writable := writable w |}.

(** [std::ofstream ofs(name)]: when the file can be opened it is created or
    truncated and the stream is good; otherwise nothing changes on disk and
    the stream is not good. *)
Definition ofstream_open (name : string) (w : World) : option World :=
  if writable w name
  then Some {| stdout := stdout w; files := <[name := EmptyString]> (files w);
               writable := writable w |}
  else None.

(** [ofs.close()]: the text written to the stream is the content of the file. *)
Definition ofstream_close (name : string) (ofs : ostream) (w : World) : World :=
  {| stdout := stdout w; files := <[name := ofs]> (files w);
     writable := writable w |}.

(** ** Vectors and counted loops *)

(** [v[i]] on an [amrex::Vector], read and written: defined inside the
    vector only.  [None] stands for the access outside it, which has no
    defined behaviour. *)
Definition vec_get {A} (v : list A) (i : Z) : option A :=
  if decide (0 ≤ i)%Z then v !! Z.to_nat i else None.

Definition vec_set {A} (v : list A) (i : Z) (x : A) : option (list A) :=
  if decide (0 ≤ i < Z.of_nat (length v))%Z
  then Some (<[Z.to_nat i := x]> v) else None.

(** [for (i = 0; i < n; ++i) body]: the body runs for i = 0, ..., n-1 in
    this order on the state [s]; a body without a defined result leaves the
    whole loop without one. *)
Definition for_range {St} (n : Z) (body : Z → St → option St) (s : St)
  : option St :=
  foldl (λ acc i, acc ≫= body i) (Some s) (seqZ 0 n).

(** Modelled from the spec: [PIdx] is declared in MDParticleContainer.H, which
    is not among the sources; the spec gives the six attribute slots as
    velocity x/y/z then acceleration x/y/z, addressed by a fixed index. *)
Module PIdx.
Definition vx : nat := 0.
Definition vy : nat := 1.
Definition vz : nat := 2.
Definition ax : nat := 3.
Definition ay : nat := 4.
Definition az : nat := 5.
Definition ncomps : nat := 6.
End PIdx.

(** ** Index space *)

(** [amrex::IntVect] in three dimensions (the export reads [pos(2)]);
    [IntVect()] is the zero vector. *)
Record IntVect := mkIntVect { iv_x : Z; iv_y : Z; iv_z : Z }.

Definition IntVect_default : IntVect := mkIntVect 0 0 0.

Record Box := mkBox { smallEnd : IntVect; bigEnd : IntVect }.

(** Modelled from the spec: [amrex::BoxArray] is AMReX library code.  A box
    array is a sequence of boxes, and, as the source comments on its use and
    the spec says of the field array (covering the full per-level domain),
    [BoxArray(bx)] holds the one box [bx]. *)
Definition BoxArray : Type := list Box.
Definition BoxArray_of_Box (bx : Box) : BoxArray := [bx].

Section FieldIO.
(** [amrex::Real], its text form under [operator<<] and the literal [0.0]. *)
Context {Real : Type}.
Variable show_Real : Real → string.
Variable Real_zero : Real.

(** [amrex::Geometry] with its index-space domain, and
    [amrex::DistributionMapping] with the constructor that takes nothing
    but a box array. *)
Context {Geometry DistributionMapping : Type}.
Variable Domain : Geometry → Box.
Variable DistributionMapping_of : BoxArray → DistributionMapping.

(** ** The particle container, as the export reads it *)

Record ParticleType := mkParticle {
  pos : nat → Real;
  rdata : nat → Real
}.

(** A tile's array of structs: the particle count (never negative) and the
    particles [p[0] .. p[numParticles-1]] behind [dataPtr]. *)
Record ArrayOfStructs := mkAoS {
  numParticles : nat;
  dataPtr : nat → ParticleType
}.

Record ParticleTile := mkTile {
  GetArrayOfStructs : ArrayOfStructs
}.

(** A level's tiles: a map from (grid, tile) index to tile, in the order
    its iteration yields them. *)
Definition ParticleLevel : Type := list ((Z * Z) * ParticleTile).

Record MDParticleContainer := mkPC {
  finestLevel : Z;
  GetParticles : Z → ParticleLevel
}.

(** ** WriteParticlesVTK, step 1: count *)

(** The level loop [for (int lev = 0; lev <= finest_level; ++lev)] walks
    0, ..., [finest_level]; the tile loop walks the level's map in its
    iteration order.  [np_total] is an [amrex::Long]. *)

Definition count_tiles (plev : ParticleLevel) (np_total : Z) : Z :=
  foldl (λ np_total kv,
           let ptile := kv.2 in
           Long.add np_total
             (Z.of_nat (numParticles (GetArrayOfStructs ptile))))
        np_total plev.

Definition count_particles (pc : MDParticleContainer) : Z :=
  let finest_level := finestLevel pc in
  foldl (λ np_total lev,
           let plev := GetParticles pc lev in
           count_tiles plev np_total)
        0%Z (seqZ 0 (finest_level + 1)).

(** ** WriteParticlesVTK, step 2: collect into host vectors *)

Record HostVectors := mkHost {
  xs : list Real; ys : list Real; zs : list Real;
  vxs : list Real; vys : list Real; vzs : list Real;
  axs : list Real; ays : list Real; azs : list Real
}.

Definition host_empty : HostVectors := mkHost [] [] [] [] [] [] [] [] [].

(** The nine [push_back] calls of the innermost loop body. *)
Definition push_particle (part : ParticleType) (h : HostVectors) : HostVectors :=
  {| xs := xs h ++ [pos part 0];
     ys := ys h ++ [pos part 1];
     zs := zs h ++ [pos part 2];
     vxs := vxs h ++ [rdata part PIdx.vx];
     vys := vys h ++ [rdata part PIdx.vy];
     vzs := vzs h ++ [rdata part PIdx.vz];
     axs := axs h ++ [rdata part PIdx.ax];
     ays := ays h ++ [rdata part PIdx.ay];
     azs := azs h ++ [rdata part PIdx.az] |}.

Definition collect_tile (ptile : ParticleTile) (h : HostVectors) : HostVectors :=
  let aos := GetArrayOfStructs ptile in
  let np := numParticles aos in
  let p := dataPtr aos in
  foldl (λ h i, let part := p i in push_particle part h) h (seq 0 np).

Definition collect_tiles (plev : ParticleLevel) (h : HostVectors) : HostVectors :=
  foldl (λ h kv, let ptile := kv.2 in collect_tile ptile h) h plev.

Definition collect_particles (pc : MDParticleContainer) : HostVectors :=
  let finest_level := finestLevel pc in
  foldl (λ h lev, let plev := GetParticles pc lev in collect_tiles plev h)
        host_empty (seqZ 0 (finest_level + 1)).

(** ** WriteParticlesVTK, steps 4 and 5: the text of the file *)

Definition write_header (ofs : ostream) : ostream :=
  let ofs := ofs << "# vtk DataFile Version 3.0" << endl in
  let ofs := ofs << "MD particles" << endl in
  let ofs := ofs << "ASCII" << endl in
  let ofs := ofs << "DATASET POLYDATA" << endl in
  ofs.

Definition write_points (np_total : Z) (h : HostVectors) (ofs : ostream)
  : option ostream :=
  let ofs := ofs << "POINTS " << pretty np_total << " double" << endl in
  ofs ← for_range np_total (λ i ofs,
           x ← vec_get (xs h) i;
           y ← vec_get (ys h) i;
           z ← vec_get (zs h) i;
           Some (ofs << show_Real x << " " << show_Real y << " "
                     << show_Real z << endl)) ofs;
  Some (ofs << endl).

Definition write_vertices (np_total : Z) (ofs : ostream) : option ostream :=
  let ofs := ofs << "VERTICES " << pretty np_total << " "
                 << pretty (Long.mul 2 np_total) << endl in
  ofs ← for_range np_total (λ i ofs,
           Some (ofs << "1 " << pretty i << endl)) ofs;
  Some (ofs << endl).

(** The lambda [write_scalar] of the source. *)
Definition write_scalar (np_total : Z) (name : string) (data : list Real)
    (ofs : ostream) : option ostream :=
  let ofs := ofs << "SCALARS " << name << " double 1" << endl in
  let ofs := ofs << "LOOKUP_TABLE default" << endl in
  ofs ← for_range np_total (λ i ofs,
           d ← vec_get data i;
           Some (ofs << show_Real d << endl)) ofs;
  Some (ofs << endl).

Definition write_point_data (np_total : Z) (h : HostVectors) (ofs : ostream)
  : option ostream :=
  let ofs := ofs << "POINT_DATA " << pretty np_total << endl in
  ofs ← write_scalar np_total "vx" (vxs h) ofs;
  ofs ← write_scalar np_total "vy" (vys h) ofs;
  ofs ← write_scalar np_total "vz" (vzs h) ofs;
  ofs ← write_scalar np_total "ax" (axs h) ofs;
  ofs ← write_scalar np_total "ay" (ays h) ofs;
  ofs ← write_scalar np_total "az" (azs h) ofs;
  Some ofs.

Definition write_vtk (np_total : Z) (h : HostVectors) (ofs : ostream)
  : option ostream :=
  let ofs := write_header ofs in
  ofs ← write_points np_total h ofs;
  ofs ← write_vertices np_total ofs;
  write_point_data np_total h ofs.

(** ** WriteParticlesVTK *)

Definition vtkfile_name (nstep : Z) : string :=
  Concatenate "particles_" nstep 5 +:+ ".vtk".

(** The result is [None] when the run has no defined result (a vector read
    outside its bounds); otherwise it is the environment the call leaves.
    The [reserve] calls only set capacities and are not modelled. *)
Definition WriteParticlesVTK (pc : MDParticleContainer) (nstep : Z)
    (w : World) : option World :=
  let np_total := count_particles pc in
  if decide (np_total = 0%Z) then
    Some (Print ("WriteParticlesVTK: no particles to write." +:+ endl) w)
  else
    let h := collect_particles pc in
    let vtkfile := vtkfile_name nstep in
    match ofstream_open vtkfile w with
    | None =>
        Some (Print ("WriteParticlesVTK: could not open file "
                       +:+ vtkfile +:+ endl) w)
    | Some w =>
        ofs ← write_vtk np_total h EmptyString;
        let w := ofstream_close vtkfile ofs w in
        Some (Print ("WriteParticlesVTK: wrote " +:+ pretty np_total
                       +:+ " particles to " +:+ vtkfile +:+ endl) w)
    end.

(** ** WritePlotFile *)

(** A [MultiFab]: its layout, component and ghost-cell counts, and the
    value every cell holds ([None] while the data is not initialised). *)
Record MultiFab := mkMultiFab {
  boxArray : BoxArray;
  DistributionMap : DistributionMapping;
  nComp : Z;
  nGrow : Z;
  fab_value : option Real
}.

Definition MultiFab_new (ba : BoxArray) (dm : DistributionMapping)
    (ncomp ngrow : Z) : MultiFab :=
  mkMultiFab ba dm ncomp ngrow None.

Definition setVal (v : Real) (m : MultiFab) : MultiFab :=
  {| boxArray := boxArray m; DistributionMap := DistributionMap m;
     nComp := nComp m; nGrow := nGrow m; fab_value := Some v |}.

(** The two writers the export hands its data to, with the arguments of
    the call. *)
Inductive IOCall :=
| WriteMultiLevelPlotfile (plotfilename : string) (nlevels : Z)
    (mf : list (option MultiFab)) (varnames : list string)
    (geom : list Geometry) (time : Real) (level_steps : list Z)
    (ref_ratio : list IntVect)
| Checkpoint (pc : MDParticleContainer) (dir name : string)
    (is_checkpoint : bool) (real_comp_names : list string).

(** What a call of [WritePlotFile] did: the field arrays it built (the
    vector [mf]) and the writer calls it made, in order. *)
Record PlotFileRun := mkRun {
  field_arrays : list (option MultiFab);
  calls : list IOCall
}.

(** The body of the per-level loop.  A pointer to a [MultiFab] is modelled
    by the [MultiFab] it points to ([None] for a null pointer): nothing is
    written through [mf[lev]] after [output_cc[lev]] is taken from it. *)
Definition build_level (geom : list Geometry) (varnames : list string)
    (lev : Z) (st : list (option MultiFab) * list (option MultiFab))
  : option (list (option MultiFab) * list (option MultiFab)) :=
  let '(mf, output_cc) := st in
  g ← vec_get geom lev;
  let ba := BoxArray_of_Box (Domain g) in
  let dm := DistributionMapping_of ba in
  mf ← vec_set mf lev
         (Some (MultiFab_new ba dm (Z.of_nat (length varnames)) 0));
  m ← vec_get mf lev ≫= id;
  mf ← vec_set mf lev (Some (setVal Real_zero m));
  p ← vec_get mf lev;
  output_cc ← vec_set output_cc lev p;
  Some (mf, output_cc).

Definition WritePlotFile (pc : MDParticleContainer) (geom : list Geometry)
    (nstep : Z) : option PlotFileRun :=
  let num_levels := Int.wrap (Z.of_nat (length geom)) in
  if decide (num_levels ≤ 0)%Z then Some (mkRun [] [])
  else
    varnames ← vec_set (replicate 1 EmptyString) 0 "dummy";
    let level_steps := replicate (Z.to_nat num_levels) nstep in
    let mf := replicate (Z.to_nat num_levels) None in
    let output_cc := replicate (Z.to_nat num_levels) None in
    st ← for_range num_levels (build_level geom varnames) (mf, output_cc);
    let '(mf, output_cc) := st in
    let refRatio :=
      replicate (Z.to_nat (Z.max (Int.sub num_levels 1) 0)) IntVect_default in
    refRatio ← for_range (Int.sub num_levels 1)
                 (λ lev refRatio, vec_set refRatio lev (mkIntVect 2 2 2))
                 refRatio;
    let pltfile := Concatenate "plt" nstep 5 in
    let call1 :=
      WriteMultiLevelPlotfile pltfile num_levels output_cc varnames geom
        Real_zero level_steps refRatio in
    let particle_varnames := replicate PIdx.ncomps EmptyString in
    particle_varnames ← vec_set particle_varnames (Z.of_nat PIdx.vx) "vx";
    particle_varnames ← vec_set particle_varnames (Z.of_nat PIdx.vy) "vy";
    particle_varnames ← vec_set particle_varnames (Z.of_nat PIdx.vz) "vz";
    particle_varnames ← vec_set particle_varnames (Z.of_nat PIdx.ax) "ax";
    particle_varnames ← vec_set particle_varnames (Z.of_nat PIdx.ay) "ay";
    particle_varnames ← vec_set particle_varnames (Z.of_nat PIdx.az) "az";
    let call2 := Checkpoint pc pltfile "particle0" true particle_varnames in
    Some (mkRun mf [call1; call2]).

(** ** The population and the file as the specification describes them *)

(** The levels the export walks: 0 up to the finest level, ascending. *)
Definition levels (pc : MDParticleContainer) : list Z :=
  seqZ 0 (finestLevel pc + 1).

Definition tile_count (kv : (Z * Z) * ParticleTile) : nat :=
  numParticles (GetArrayOfStructs kv.2).

(** The sum, over all levels and all tiles of a level, of the tile's
    particle count. *)
Definition particle_total (pc : MDParticleContainer) : nat :=
  sum_list_with
    (λ lev, sum_list_with tile_count (GetParticles pc lev)) (levels pc).

Definition tile_particles (ptile : ParticleTile) : list ParticleType :=
  let aos := GetArrayOfStructs ptile in
  dataPtr aos <$> seq 0 (numParticles aos).

(** Every particle of the population once, ordered by level ascending,
    then tile iteration order, then position in the tile. *)
Definition all_particles (pc : MDParticleContainer) : list ParticleType :=
  lev ← levels pc; kv ← GetParticles pc lev; tile_particles kv.2.

(** The nine parallel sequences of a sequence of particles. *)
Definition host_of (ps : list ParticleType) : HostVectors :=
  {| xs := (λ p, pos p 0) <$> ps;
     ys := (λ p, pos p 1) <$> ps;
     zs := (λ p, pos p 2) <$> ps;
     vxs := (λ p, rdata p PIdx.vx) <$> ps;
     vys := (λ p, rdata p PIdx.vy) <$> ps;
     vzs := (λ p, rdata p PIdx.vz) <$> ps;
     axs := (λ p, rdata p PIdx.ax) <$> ps;
     ays := (λ p, rdata p PIdx.ay) <$> ps;
     azs := (λ p, rdata p PIdx.az) <$> ps |}.

(** The blocks of the point-cloud file, as lines. *)
Definition header_lines : list string :=
  ["# vtk DataFile Version 3.0"; "MD particles"; "ASCII"; "DATASET POLYDATA"].

Definition point_line (p : ParticleType) : string :=
  show_Real (pos p 0) +:+ " " +:+ show_Real (pos p 1) +:+ " "
    +:+ show_Real (pos p 2).

Definition points_block (n : Z) (ps : list ParticleType) : list string :=
  ("POINTS " +:+ pretty n +:+ " double") :: (point_line <$> ps)
    ++ [EmptyString].

Definition vertex_line (i : Z) : string := "1 " +:+ pretty i.

Definition vertices_block (n m : Z) : list string :=
  ("VERTICES " +:+ pretty n +:+ " " +:+ pretty m)
    :: (vertex_line <$> seqZ 0 n) ++ [EmptyString].

Definition scalar_rows (k : nat) (ps : list ParticleType) : list string :=
  (λ p, show_Real (rdata p k)) <$> ps.

Definition scalar_block (name : string) (k : nat) (ps : list ParticleType)
  : list string :=
  ("SCALARS " +:+ name +:+ " double 1") :: "LOOKUP_TABLE default"
    :: scalar_rows k ps ++ [EmptyString].

Definition point_data_block (n : Z) (ps : list ParticleType) : list string :=
  ("POINT_DATA " +:+ pretty n)
    :: scalar_block "vx" PIdx.vx ps ++ scalar_block "vy" PIdx.vy ps
    ++ scalar_block "vz" PIdx.vz ps ++ scalar_block "ax" PIdx.ax ps
    ++ scalar_block "ay" PIdx.ay ps ++ scalar_block "az" PIdx.az ps.

(** The whole file for the particles [ps], declaring [n] points and an
    index list of size [m]. *)
Definition vtk_lines (n m : Z) (ps : list ParticleType) : list string :=
  header_lines ++ points_block n ps ++ vertices_block n m
    ++ point_data_block n ps.

(** The field array of one level, as the spec describes it: one component
    named dummy, no ghost cells, every value zero, over the level's whole
    domain as one box. *)
Definition level_field (g : Geometry) : MultiFab :=
  {| boxArray := [Domain g];
     DistributionMap := DistributionMapping_of [Domain g];
     nComp := 1; nGrow := 0; fab_value := Some Real_zero |}.

(** ** What the export reads of a population *)

(** Two particles with the same position and the same six attributes. *)
Definition particle_agree (p p' : ParticleType) : Prop :=
  pos p 0 = pos p' 0 ∧ pos p 1 = pos p' 1 ∧ pos p 2 = pos p' 2
  ∧ ∀ k, k < PIdx.ncomps → rdata p k = rdata p' k.

(** Two tiles with the same particle count and agreeing particles below
    that count. *)
Definition tile_agree (t t' : ParticleTile) : Prop :=
  let aos := GetArrayOfStructs t in
  let aos' := GetArrayOfStructs t' in
  numParticles aos = numParticles aos'
  ∧ ∀ i, i < numParticles aos → particle_agree (dataPtr aos i) (dataPtr aos' i).

(** Two levels whose iterations yield agreeing tiles, whatever their
    indices. *)
Definition level_agree (plev plev' : ParticleLevel) : Prop :=
  Forall2 (λ kv kv', tile_agree kv.2 kv'.2) plev plev'.

(** Two containers with the same finest level and agreeing levels from 0 up
    to it. *)
Definition population_agree (pc pc' : MDParticleContainer) : Prop :=
  finestLevel pc = finestLevel pc'
  ∧ ∀ lev, (0 ≤ lev ≤ finestLevel pc)%Z →
      level_agree (GetParticles pc lev) (GetParticles pc' lev).

End FieldIO.

Arguments ParticleType : clear implicits.
Arguments ArrayOfStructs : clear implicits.
Arguments ParticleTile : clear implicits.
Arguments ParticleLevel : clear implicits.
Arguments MDParticleContainer : clear implicits.
Arguments HostVectors : clear implicits.
Arguments MultiFab : clear implicits.
Arguments IOCall : clear implicits.
Arguments PlotFileRun : clear implicits.

(** The lines of a text: the pieces between newline characters, the last
    one only if it is not empty. *)
Fixpoint lines_from (cur : string) (s : string) : list string :=
  match s with
  | EmptyString => if decide (cur = EmptyString) then [] else [cur]
  | String c s =>
      if decide (c = Ascii.ascii_of_nat 10) then cur :: lines_from EmptyString s
      else lines_from (cur +:+ String c EmptyString) s
  end.

Definition lines (s : string) : list string := lines_from EmptyString s.

(** A line proper holds no newline character. *)
Fixpoint newline_free (s : string) : bool :=
  match s with
  | EmptyString => true
  | String c s =>
      if decide (c = Ascii.ascii_of_nat 10) then false else newline_free s
  end.

(** ** A small population and geometry to evaluate the export on *)

Module Example.
(** Reals are stood for by integers here, printed in decimal. *)
Definition part (k : Z) : ParticleType Z :=
  mkParticle (λ i, (k * 10 + Z.of_nat i)%Z) (λ i, (k * 100 + Z.of_nat i)%Z).

Definition tile (n : nat) (first : Z) : ParticleTile Z :=
  mkTile (mkAoS n (λ i, part (first + Z.of_nat i))).

(** Two levels: two particles in one tile of level 0, one particle in a
    tile of level 1 next to an empty tile. *)
Definition pc : MDParticleContainer Z :=
  mkPC 1 (λ lev, if decide (lev = 0%Z)
                 then [((0, 0)%Z, tile 2 1)]
                 else [((0, 0)%Z, tile 0 0); ((3, 0)%Z, tile 1 7)]).

(** No particle on the single level. *)
Definition pc_empty : MDParticleContainer Z :=
  mkPC 0 (λ lev, [((0, 0)%Z, tile 0 0)]).

Definition world : World := mkWorld [] ∅ (λ _, true).
Definition world_readonly : World := mkWorld [] ∅ (λ _, false).

(** A geometry is stood for by its domain box, a distribution mapping by
    the number of boxes it maps. *)
Definition cube (n : Z) : Box := mkBox (mkIntVect 0 0 0) (mkIntVect n n n).
Definition geom : list Box := [cube 3; cube 7].
Definition dmap (ba : BoxArray) : nat := length ba.

(** The population [pc] stored differently: other tile indices, other
    values in the attribute slots the export does not name, other particles
    behind the counted ones, and a tile on a level above the finest. *)
Definition part_alt (k : Z) : ParticleType Z :=
  mkParticle (λ i, if decide (i < 3) then (k * 10 + Z.of_nat i)%Z else 0%Z)
             (λ i, if decide (i < 6) then (k * 100 + Z.of_nat i)%Z else (-1)%Z).

Definition tile_alt (n : nat) (first : Z) : ParticleTile Z :=
  mkTile (mkAoS n (λ i, if decide (i < n) then part_alt (first + Z.of_nat i)
                        else part_alt 999)).

Definition pc_alt : MDParticleContainer Z :=
  mkPC 1 (λ lev, if decide (lev = 0%Z) then [((5, 5)%Z, tile_alt 2 1)]
                 else if decide (lev = 1%Z)
                      then [((0, 1)%Z, tile_alt 0 0); ((9, 9)%Z, tile_alt 1 7)]
                      else [((0, 0)%Z, tile 4 50)]).

(** Tiles with particles, but a finest level below level 0. *)
Definition pc_no_level : MDParticleContainer Z :=
  mkPC (-1) (λ lev, [((0, 0)%Z, tile 2 1)]).
End Example.

(** * Properties of the embedding *)

(** ** Integers, strings, vectors and loops *)

Lemma Long_wrap_id (z : Z) :
  (Long.min_signed ≤ z ≤ Long.max_signed)%Z → Long.wrap z = z.
Proof.
  unfold Long.min_signed, Long.max_signed, Long.wrap. intros Hz.
  rewrite Z.mod_small; lia.
Qed.

Lemma Int_wrap_id (z : Z) :
  (Int.min_signed ≤ z ≤ Int.max_signed)%Z → Int.wrap z = z.
Proof.
  unfold Int.min_signed, Int.max_signed, Int.wrap. intros Hz.
  rewrite Z.mod_small; lia.
Qed.

Lemma string_app_nil_l (b : string) : EmptyString +:+ b = b.
Proof. reflexivity. Qed.

Lemma string_app_cons (x : ascii) (a b : string) :
  String x a +:+ b = String x (a +:+ b).
Proof. reflexivity. Qed.

Lemma string_app_assoc (a b c : string) : (a +:+ b) +:+ c = a +:+ (b +:+ c).
Proof.
  induction a as [|x a IH]; [done |]. by rewrite !string_app_cons, IH.
Qed.

Lemma string_app_nil_r (a : string) : a +:+ EmptyString = a.
Proof. induction a as [|x a IH]; [done |]. by rewrite string_app_cons, IH. Qed.

Lemma unlines_app (l k : list string) :
  unlines (l ++ k) = unlines l +:+ unlines k.
Proof.
  induction l as [|x l IH]; simpl; [done |].
  by rewrite IH, !string_app_assoc.
Qed.

Lemma unlines_snoc (l : list string) (x : string) :
  unlines (l ++ [x]) = unlines l +:+ x +:+ endl.
Proof. rewrite unlines_app. simpl. by rewrite string_app_nil_r. Qed.

Lemma lines_from_line (cur l rest : string) :
  newline_free l = true →
  lines_from cur (l +:+ endl +:+ rest)
  = (cur +:+ l) :: lines_from EmptyString rest.
Proof.
  revert cur. induction l as [|c l IH]; intros cur Hl.
  - rewrite string_app_nil_l, string_app_nil_r. unfold endl.
    by rewrite string_app_cons, string_app_nil_l.
  - simpl in Hl. case_decide as Hc; [done |].
    rewrite string_app_cons. simpl. rewrite decide_False by done.
    rewrite IH by done. by rewrite string_app_assoc.
Qed.

(** [lines] reads back the lines that [unlines] joined. *)
Lemma lines_unlines (ls : list string) :
  Forall (λ l, newline_free l = true) ls → lines (unlines ls) = ls.
Proof.
  unfold lines. induction 1 as [|l ls Hl _ IH]; [done |].
  simpl. by rewrite lines_from_line, IH.
Qed.

Lemma vec_get_lookup {A} (v : list A) (i : Z) :
  (0 ≤ i)%Z → vec_get v i = v !! Z.to_nat i.
Proof. intros Hi. unfold vec_get. by rewrite decide_True by lia. Qed.

Lemma vec_get_fmap {A B} (f : A → B) (v : list A) (i : Z) :
  vec_get (f <$> v) i = f <$> vec_get v i.
Proof. unfold vec_get. case_decide; [apply list_lookup_fmap | done]. Qed.

Lemma vec_get_is_Some {A} (v : list A) (i : Z) :
  (0 ≤ i < Z.of_nat (length v))%Z → is_Some (vec_get v i).
Proof.
  intros Hi. unfold vec_get. rewrite decide_True by lia.
  apply lookup_lt_is_Some. lia.
Qed.

Lemma vec_set_Some {A} (v : list A) (i : Z) (x : A) :
  (0 ≤ i < Z.of_nat (length v))%Z →
  vec_set v i x = Some (<[Z.to_nat i := x]> v).
Proof. intros Hi. unfold vec_set. by rewrite decide_True by lia. Qed.

(** The loop rule: an invariant that holds at entry and that every
    iteration with a defined result of its own re-establishes holds at exit,
    and the loop has a defined result. *)
Lemma for_range_inv {St} (I : Z → St → Prop) (n : Z)
    (body : Z → St → option St) (s : St) :
  (0 ≤ n)%Z → I 0%Z s →
  (∀ i s, (0 ≤ i < n)%Z → I i s → ∃ s', body i s = Some s' ∧ I (i + 1)%Z s') →
  ∃ s', for_range n body s = Some s' ∧ I n s'.
Proof.
  intros Hn H0 Hstep. unfold for_range.
  assert (∀ k : nat, (Z.of_nat k ≤ n)%Z →
    ∃ s', foldl (λ acc i, acc ≫= body i) (Some s) (seqZ 0 (Z.of_nat k)) = Some s'
          ∧ I (Z.of_nat k) s') as Hk.
  { induction k as [|k IH]; intros Hle.
    - exists s. by split.
    - destruct IH as (s1 & Hrun & HI); [lia |].
      destruct (Hstep (Z.of_nat k) s1) as (s2 & Hbody & HI2); [lia | done |].
      exists s2. rewrite seqZ_S, foldl_app, Hrun. simpl.
      split; [done |]. by replace (Z.of_nat (S k)) with (Z.of_nat k + 1)%Z by lia. }
  destruct (Hk (Z.to_nat n)) as (s' & Hrun & HI); [lia |].
  rewrite Z2Nat.id in Hrun, HI by done. eauto.
Qed.

(** A loop that writes one line per iteration writes these lines. *)
Lemma for_range_lines (n : Z) (body : Z → ostream → option ostream)
    (line : Z → string) (ofs : ostream) :
  (∀ i ofs, (0 ≤ i < n)%Z → body i ofs = Some (ofs +:+ line i +:+ endl)) →
  for_range n body ofs = Some (ofs +:+ unlines (line <$> seqZ 0 n)).
Proof.
  intros Hbody. destruct (decide (0 ≤ n)%Z) as [Hn|Hn].
  - destruct (for_range_inv
      (λ i o, o = ofs +:+ unlines (line <$> seqZ 0 i)) n body ofs)
      as (o & Hrun & ->); [done | by rewrite string_app_nil_r | | done].
    intros i o Hi ->. eexists. split; [by apply Hbody |].
    replace (i + 1)%Z with (Z.of_nat (S (Z.to_nat i))) by lia.
    rewrite seqZ_S, fmap_app. cbn [fmap list_fmap].
    rewrite unlines_snoc, Z2Nat.id, Z.add_0_l by lia.
    by rewrite !string_app_assoc.
  - unfold for_range. rewrite seqZ_nil by lia. simpl.
    by rewrite string_app_nil_r.
Qed.

Lemma fmap_seqZ_lookup {A B} (f : A → B) (d : B) (l : list A) :
  (λ i, from_option f d (l !! Z.to_nat i)) <$> seqZ 0 (Z.of_nat (length l))
  = f <$> l.
Proof.
  apply list_eq. intros i. rewrite !list_lookup_fmap.
  destruct (decide (i < length l)) as [Hi|Hi].
  - rewrite lookup_seqZ_lt by lia. simpl. rewrite Z.add_0_l, Nat2Z.id.
    destruct (lookup_lt_is_Some_2 l i Hi) as [x Hx]. by rewrite Hx.
  - rewrite lookup_seqZ_ge by lia. by rewrite (lookup_ge_None_2 l i) by lia.
Qed.

(** ** WriteParticlesVTK: the two passes over the population *)

Section ParticlesVTK.
Context {Real : Type} (show_Real : Real → string).
Implicit Types (pc : MDParticleContainer Real) (plev : ParticleLevel Real).
Implicit Types (ps : list (ParticleType Real)) (h : HostVectors Real).

Lemma count_tiles_sum plev (acc : Z) :
  (0 ≤ acc)%Z →
  (acc + Z.of_nat (sum_list_with tile_count plev) ≤ Long.max_signed)%Z →
  count_tiles plev acc = (acc + Z.of_nat (sum_list_with tile_count plev))%Z.
Proof.
  unfold count_tiles. revert acc.
  induction plev as [|kv plev IH]; intros acc H0 Hmax; simpl in *; [lia |].
  unfold Long.add. fold (tile_count kv) in *.
  rewrite Long_wrap_id by (unfold Long.min_signed; lia).
  rewrite IH by lia. lia.
Qed.

Lemma count_levels_sum pc (ls : list Z) (acc : Z) :
  let total :=
    sum_list_with (λ lev, sum_list_with tile_count (GetParticles pc lev)) ls in
  (0 ≤ acc)%Z → (acc + Z.of_nat total ≤ Long.max_signed)%Z →
  foldl (λ np_total lev, count_tiles (GetParticles pc lev) np_total) acc ls
  = (acc + Z.of_nat total)%Z.
Proof.
  revert acc.
  induction ls as [|lev ls IH]; intros acc total H0 Hmax;
    subst total; simpl in *; [lia |].
  rewrite count_tiles_sum by lia. rewrite IH by lia. lia.
Qed.

(** The counting pass computes the sum of the tiles' counts, as long as
    that sum is a value of [amrex::Long]. *)
Lemma count_particles_total pc :
  (Z.of_nat (particle_total pc) ≤ Long.max_signed)%Z →
  count_particles pc = Z.of_nat (particle_total pc).
Proof.
  intros Hmax. unfold count_particles. fold (levels pc).
  rewrite count_levels_sum; unfold particle_total in *; lia.
Qed.

Lemma push_particle_host ps (part : ParticleType Real) :
  push_particle part (host_of ps) = host_of (ps ++ [part]).
Proof. unfold push_particle, host_of. simpl. by rewrite !fmap_app. Qed.

Lemma collect_tile_host ps (ptile : ParticleTile Real) :
  collect_tile ptile (host_of ps) = host_of (ps ++ tile_particles ptile).
Proof.
  unfold collect_tile, tile_particles.
  generalize (seq 0 (numParticles (GetArrayOfStructs ptile))) as l.
  intros l. revert ps.
  induction l as [|i l IH]; intros ps; simpl.
  - by rewrite app_nil_r.
  - rewrite push_particle_host, IH. by rewrite <- app_assoc.
Qed.

Lemma collect_tiles_host ps plev :
  collect_tiles plev (host_of ps)
  = host_of (ps ++ (kv ← plev; tile_particles kv.2)).
Proof.
  unfold collect_tiles. revert ps.
  induction plev as [|kv plev IH]; intros ps; simpl.
  - by rewrite app_nil_r.
  - rewrite collect_tile_host, IH. by rewrite <- app_assoc.
Qed.

Lemma collect_levels_host pc (ls : list Z) ps :
  foldl (λ h lev, collect_tiles (GetParticles pc lev) h) (host_of ps) ls
  = host_of (ps ++ (lev ← ls; kv ← GetParticles pc lev; tile_particles kv.2)).
Proof.
  revert ps. induction ls as [|lev ls IH]; intros ps; simpl.
  - by rewrite app_nil_r.
  - rewrite collect_tiles_host, IH. by rewrite <- app_assoc.
Qed.

(** The collection pass fills the nine vectors with the particles of the
    population in level, tile and in-tile order. *)
Lemma collect_particles_host pc :
  collect_particles pc = host_of (all_particles pc).
Proof.
  unfold collect_particles, all_particles. fold (levels pc).
  change host_empty with (host_of (@nil (ParticleType Real))).
  by rewrite collect_levels_host.
Qed.

Lemma length_tile_particles (ptile : ParticleTile Real) :
  length (tile_particles ptile) = numParticles (GetArrayOfStructs ptile).
Proof. unfold tile_particles. by rewrite length_fmap, length_seq. Qed.

Lemma length_level_particles plev :
  length (kv ← plev; tile_particles kv.2) = sum_list_with tile_count plev.
Proof.
  induction plev as [|kv plev IH]; [done |].
  rewrite bind_cons, length_app, IH, length_tile_particles. done.
Qed.

(** The particles listed are as many as the tiles count. *)
Lemma length_all_particles pc :
  length (all_particles pc) = particle_total pc.
Proof.
  unfold all_particles, particle_total.
  induction (levels pc) as [|lev ls IH]; [done |].
  rewrite bind_cons, length_app, IH, length_level_particles. done.
Qed.

(** ** WriteParticlesVTK: the text written *)

Ltac norm_text :=
  unfold put; cbn [unlines mbind option_bind];
  rewrite ?unlines_app; cbn [unlines];
  rewrite ?string_app_assoc, ?string_app_nil_r.

Lemma write_header_lines (ofs : ostream) :
  write_header ofs = ofs +:+ unlines header_lines.
Proof. unfold write_header, header_lines. by norm_text. Qed.

Lemma vec_get_host {A} (f : ParticleType Real → A) ps (i : Z) :
  (0 ≤ i < Z.of_nat (length ps))%Z →
  ∃ p, ps !! Z.to_nat i = Some p ∧ vec_get (f <$> ps) i = Some (f p).
Proof.
  intros Hi. destruct (lookup_lt_is_Some_2 ps (Z.to_nat i)) as [p Hp]; [lia |].
  exists p. split; [done |].
  rewrite vec_get_fmap. unfold vec_get. rewrite decide_True by lia.
  by rewrite Hp.
Qed.

Lemma write_points_lines ps (n : Z) (ofs : ostream) :
  n = Z.of_nat (length ps) →
  write_points show_Real n (host_of ps) ofs
  = Some (ofs +:+ unlines (points_block show_Real n ps)).
Proof.
  intros ->. unfold write_points, points_block.
  rewrite (for_range_lines _ _
    (λ i, from_option (point_line show_Real) EmptyString (ps !! Z.to_nat i))).
  - rewrite fmap_seqZ_lookup. by norm_text.
  - intros i o Hi. cbn [host_of xs ys zs].
    destruct (vec_get_host (λ p, pos p 0) ps i) as (p & Hp & ->); [lia |].
    destruct (vec_get_host (λ p, pos p 1) ps i) as (p1 & Hp1 & ->); [lia |].
    destruct (vec_get_host (λ p, pos p 2) ps i) as (p2 & Hp2 & ->); [lia |].
    rewrite Hp in Hp1, Hp2 |- *. simplify_eq. cbn [from_option].
    unfold point_line. by norm_text.
Qed.

Lemma write_vertices_lines (n : Z) (ofs : ostream) :
  write_vertices n ofs
  = Some (ofs +:+ unlines (vertices_block n (Long.mul 2 n))).
Proof.
  unfold write_vertices, vertices_block.
  rewrite (for_range_lines n _ vertex_line).
  - by norm_text.
  - intros i o Hi. unfold vertex_line. by norm_text.
Qed.

Lemma write_scalar_lines ps (n : Z) (name : string) (k : nat) (ofs : ostream) :
  n = Z.of_nat (length ps) →
  write_scalar show_Real n name ((λ p, rdata p k) <$> ps) ofs
  = Some (ofs +:+ unlines (scalar_block show_Real name k ps)).
Proof.
  intros ->. unfold write_scalar, scalar_block, scalar_rows.
  rewrite (for_range_lines _ _
    (λ i, from_option (λ p, show_Real (rdata p k)) EmptyString
            (ps !! Z.to_nat i))).
  - rewrite fmap_seqZ_lookup. by norm_text.
  - intros i o Hi.
    destruct (vec_get_host (λ p, rdata p k) ps i) as (p & Hp & ->); [lia |].
    rewrite Hp. cbn [from_option]. by norm_text.
Qed.

Lemma write_point_data_lines ps (n : Z) (ofs : ostream) :
  n = Z.of_nat (length ps) →
  write_point_data show_Real n (host_of ps) ofs
  = Some (ofs +:+ unlines (point_data_block show_Real n ps)).
Proof.
  intros Hn. unfold write_point_data, point_data_block.
  cbn [host_of vxs vys vzs axs ays azs].
  rewrite !write_scalar_lines by done. cbn [mbind option_bind].
  rewrite !write_scalar_lines by done. cbn [mbind option_bind].
  rewrite !write_scalar_lines by done. cbn [mbind option_bind].
  rewrite !write_scalar_lines by done. cbn [mbind option_bind].
  rewrite !write_scalar_lines by done. cbn [mbind option_bind].
  rewrite !write_scalar_lines by done. cbn [mbind option_bind].
  by norm_text.
Qed.

(** The writer, given the vectors of [ps] and their length as the count,
    has a defined result: the lines of the four blocks. *)
Lemma write_vtk_lines ps (n : Z) (ofs : ostream) :
  n = Z.of_nat (length ps) →
  write_vtk show_Real n (host_of ps) ofs
  = Some (ofs +:+ unlines (vtk_lines show_Real n (Long.mul 2 n) ps)).
Proof.
  intros Hn. unfold write_vtk, vtk_lines.
  rewrite write_header_lines, write_points_lines by done.
  cbn [mbind option_bind].
  rewrite write_vertices_lines. cbn [mbind option_bind].
  rewrite write_point_data_lines by done.
  by rewrite !unlines_app, !string_app_assoc.
Qed.

(** ** WriteParticlesVTK as a whole *)

(** A population with a particle, of a size that [amrex::Long] holds, and
    a file that opens: the file holds the four blocks for the particles
    of the population, and the success notice is printed. *)
Lemma WriteParticlesVTK_writes pc (nstep : Z) (w : World) :
  let n := Z.of_nat (particle_total pc) in
  particle_total pc ≠ 0 → (n ≤ Long.max_signed)%Z →
  writable w (vtkfile_name nstep) = true →
  ∃ w', WriteParticlesVTK show_Real pc nstep w = Some w'
    ∧ files w' = <[vtkfile_name nstep :=
                    unlines (vtk_lines show_Real n (Long.mul 2 n)
                               (all_particles pc))]> (files w)
    ∧ stdout w' = stdout w ++
        ["WriteParticlesVTK: wrote " +:+ pretty n +:+ " particles to "
           +:+ vtkfile_name nstep +:+ endl]
    ∧ writable w' = writable w.
Proof.
  intros n Hne Hmax Hopen. unfold WriteParticlesVTK, ofstream_open.
  rewrite count_particles_total by done. fold n.
  rewrite decide_False by (unfold n; lia).
  rewrite Hopen, collect_particles_host.
  rewrite write_vtk_lines by (unfold n; by rewrite length_all_particles).
  cbn [mbind option_bind]. eexists. split; [done |].
  cbn [Print ofstream_close files stdout writable].
  rewrite insert_insert_eq. by rewrite string_app_nil_l.
Qed.

(** C1: the point count declared on the POINTS line is the sum, over the
    levels 0 to the finest and over the tiles of each level, of the tile's
    particle count, and it is the number of position lines of the POINTS
    block, which are the lines of the particles of the population, each
    once.  The counting pass computes that sum.  The sum is taken to be a
    value of the 64-bit counter. *)
Theorem points_count_is_particle_total pc (nstep : Z) (w : World) :
  let n := Z.of_nat (particle_total pc) in
  let ps := all_particles pc in
  (n ≤ Long.max_signed)%Z →
  count_particles pc = n
  ∧ (particle_total pc ≠ 0 → writable w (vtkfile_name nstep) = true →
     ∃ w', WriteParticlesVTK show_Real pc nstep w = Some w'
       ∧ files w' !! vtkfile_name nstep
         = Some (unlines
             (header_lines
                ++ (("POINTS " +:+ pretty n +:+ " double")
                      :: (point_line show_Real <$> ps) ++ [EmptyString])
                ++ vertices_block n (Long.mul 2 n)
                ++ point_data_block show_Real n ps))
       ∧ length (point_line show_Real <$> ps) = particle_total pc).
Proof.
  intros n ps Hmax. split; [by apply count_particles_total |].
  intros Hne Hopen.
  destruct (WriteParticlesVTK_writes pc nstep w Hne Hmax Hopen)
    as (w' & Hrun & Hfiles & _).
  exists w'. split; [done |]. split.
  - rewrite Hfiles. apply lookup_insert_eq.
  - unfold ps. by rewrite length_fmap, length_all_particles.
Qed.

(** C2: when the population has a particle, the particle at row i of the
    POINTS block is the particle whose values are at row i of each of the
    six SCALARS blocks: the nine vectors are the nine components of one
    sequence of particles, in level, tile and in-tile order. *)
Theorem rows_share_particle_order pc (nstep : Z) (w : World) :
  let n := Z.of_nat (particle_total pc) in
  let ps := all_particles pc in
  particle_total pc ≠ 0 → (n ≤ Long.max_signed)%Z →
  writable w (vtkfile_name nstep) = true →
  collect_particles pc = host_of ps
  ∧ (∃ w', WriteParticlesVTK show_Real pc nstep w = Some w'
       ∧ files w' !! vtkfile_name nstep
         = Some (unlines
             (header_lines
                ++ (("POINTS " +:+ pretty n +:+ " double")
                      :: (point_line show_Real <$> ps) ++ [EmptyString])
                ++ vertices_block n (Long.mul 2 n)
                ++ ("POINT_DATA " +:+ pretty n)
                :: scalar_block show_Real "vx" PIdx.vx ps
                ++ scalar_block show_Real "vy" PIdx.vy ps
                ++ scalar_block show_Real "vz" PIdx.vz ps
                ++ scalar_block show_Real "ax" PIdx.ax ps
                ++ scalar_block show_Real "ay" PIdx.ay ps
                ++ scalar_block show_Real "az" PIdx.az ps)))
  ∧ (∀ (i : nat) (name : string) (k : nat),
       i < particle_total pc →
       ∃ p, ps !! i = Some p
         ∧ (point_line show_Real <$> ps) !! i = Some (point_line show_Real p)
         ∧ scalar_block show_Real name k ps !! (2 + i)
           = Some (show_Real (rdata p k))).
Proof.
  intros n ps Hne Hmax Hopen. split; [apply collect_particles_host |]. split.
  - destruct (WriteParticlesVTK_writes pc nstep w Hne Hmax Hopen)
      as (w' & Hrun & Hfiles & _).
    exists w'. split; [done |]. rewrite Hfiles. apply lookup_insert_eq.
  - intros i name k Hi.
    destruct (lookup_lt_is_Some_2 ps i) as [p Hp].
    { unfold ps. by rewrite length_all_particles. }
    exists p. split; [done |]. split.
    + by rewrite list_lookup_fmap, Hp.
    + unfold scalar_block, scalar_rows.
      change (2 + i) with (S (S i)). rewrite !lookup_cons.
      rewrite lookup_app_l by (rewrite length_fmap; by apply lookup_lt_Some in Hp).
      by rewrite list_lookup_fmap, Hp.
Qed.

(** C3: a population whose tiles count zero particles in total makes the
    export print the notice that there is nothing to write, leave the
    files as they are, and return. *)
Theorem empty_population_skips_export pc (nstep : Z) (w : World) :
  particle_total pc = 0 →
  ∃ w', WriteParticlesVTK show_Real pc nstep w = Some w'
    ∧ stdout w' = stdout w ++ ["WriteParticlesVTK: no particles to write." +:+ endl]
    ∧ files w' = files w.
Proof.
  intros Hzero. unfold WriteParticlesVTK.
  rewrite count_particles_total by (rewrite Hzero; done).
  rewrite Hzero. rewrite decide_True by done. eauto.
Qed.

(** C6: when the file cannot be opened for writing, the export prints one
    notice and returns with the files as they were; with a particle in the
    population the notice is the one of the failed open, naming the file.
    Nothing is written before the file is opened. *)
Theorem open_failure_aborts_export pc (nstep : Z) (w : World) :
  writable w (vtkfile_name nstep) = false →
  ∃ notice, WriteParticlesVTK show_Real pc nstep w = Some (Print notice w)
    ∧ files (Print notice w) = files w
    ∧ stdout (Print notice w) = stdout w ++ [notice]
    ∧ (count_particles pc ≠ 0%Z →
       notice = "WriteParticlesVTK: could not open file "
                  +:+ vtkfile_name nstep +:+ endl).
Proof.
  intros Hopen. unfold WriteParticlesVTK, ofstream_open. rewrite Hopen.
  case_decide as Hn; eexists; (split; [done |]); repeat split; done.
Qed.

(** C8: with n >= 1 particles, the topology block declares n cells and an
    index list of size 2n, and then has n lines, the i-th being 1 followed
    by i.  Twice the count is taken to be a value of the 64-bit counter. *)
Theorem vertices_block_one_cell_per_point pc (nstep : Z) (w : World) :
  let n := Z.of_nat (particle_total pc) in
  let ps := all_particles pc in
  (1 ≤ n)%Z → (2 * n ≤ Long.max_signed)%Z →
  writable w (vtkfile_name nstep) = true →
  (∃ w', WriteParticlesVTK show_Real pc nstep w = Some w'
     ∧ files w' !! vtkfile_name nstep
       = Some (unlines
           (header_lines
              ++ points_block show_Real n ps
              ++ (("VERTICES " +:+ pretty n +:+ " " +:+ pretty (2 * n)%Z)
                    :: (vertex_line <$> seqZ 0 n) ++ [EmptyString])
              ++ point_data_block show_Real n ps)))
  ∧ length (vertex_line <$> seqZ 0 n) = particle_total pc
  ∧ (∀ i : nat, i < particle_total pc →
       (vertex_line <$> seqZ 0 n) !! i = Some ("1 " +:+ pretty (Z.of_nat i))).
Proof.
  intros n ps Hn H2n Hopen. split; [| split].
  - destruct (WriteParticlesVTK_writes pc nstep w) as (w' & Hrun & Hfiles & _);
      [lia | fold n; lia | done |].
    exists w'. split; [done |]. rewrite Hfiles, lookup_insert_eq. fold n.
    unfold Long.mul. rewrite Long_wrap_id by (unfold Long.min_signed; lia).
    done.
  - rewrite length_fmap, length_seqZ. unfold n. lia.
  - intros i Hi. rewrite list_lookup_fmap, lookup_seqZ_lt by (unfold n; lia).
    by rewrite Z.add_0_l.
Qed.

(** C9: after the collection pass each of the nine vectors holds as many
    elements as the counting pass found, so every [data[i]] with
    0 <= i < np_total of the write loops is inside its vector, and the
    writer has a defined result.  The sum of the tile counts is taken to
    be a value of the 64-bit counter. *)
Theorem host_vectors_hold_np_total pc :
  let np_total := count_particles pc in
  let h := collect_particles pc in
  (Z.of_nat (particle_total pc) ≤ Long.max_signed)%Z →
  Forall (λ data : list Real, Z.of_nat (length data) = np_total)
    [xs h; ys h; zs h; vxs h; vys h; vzs h; axs h; ays h; azs h]
  ∧ (∀ i : Z, (0 ≤ i < np_total)%Z →
       Forall (λ data : list Real, is_Some (vec_get data i))
         [xs h; ys h; zs h; vxs h; vys h; vzs h; axs h; ays h; azs h])
  ∧ (∀ ofs : ostream, is_Some (write_vtk show_Real np_total h ofs)).
Proof.
  intros np_total h Hmax.
  assert (np_total = Z.of_nat (length (all_particles pc))) as Hnp.
  { unfold np_total. rewrite count_particles_total by done.
    by rewrite length_all_particles. }
  assert (Forall (λ data : list Real, Z.of_nat (length data) = np_total)
    [xs h; ys h; zs h; vxs h; vys h; vzs h; axs h; ays h; azs h]) as Hlen.
  { unfold h. rewrite collect_particles_host, Hnp. cbn [host_of xs ys zs vxs vys vzs axs ays azs].
    repeat constructor; by rewrite length_fmap. }
  split; [done |]. split.
  - intros i Hi. eapply Forall_impl; [exact Hlen |].
    intros data Hdata. apply vec_get_is_Some. by rewrite Hdata.
  - intros ofs. unfold h. rewrite collect_particles_host.
    rewrite write_vtk_lines by done. eauto.
Qed.

End ParticlesVTK.

(** ** The name of the point-cloud file *)

Lemma string_length_app (a b : string) :
  String.length (a +:+ b) = String.length a + String.length b.
Proof.
  induction a as [|x a IH]; [done |].
  rewrite string_app_cons. simpl. by rewrite IH.
Qed.

Lemma string_length_fill (n : nat) (c : ascii) : String.length (fill n c) = n.
Proof. induction n as [|n IH]; simpl; [done | by rewrite IH]. Qed.

Lemma string_length_pretty_N_go (k : nat) (x : N) (s : string) :
  (x < 10 ^ N.of_nat k)%N →
  String.length (pretty_N_go x s) ≤ k + String.length s.
Proof.
  revert x s. induction k as [|k IH]; intros x s Hx.
  - assert (x = 0%N) as -> by (simpl in Hx; lia).
    by rewrite pretty_N_go_0.
  - destruct (decide (x = 0%N)) as [->|Hne].
    + rewrite pretty_N_go_0. lia.
    + rewrite pretty_N_go_step by lia.
      etrans; [apply IH |].
      * apply N.Div0.div_lt_upper_bound.
        rewrite Nat2N.inj_succ, N.pow_succ_r' in Hx. lia.
      * simpl. lia.
Qed.

(** A step index of at most five digits gives a field of five characters. *)
Lemma string_length_step_field (nstep : Z) :
  (0 ≤ nstep < 100000)%Z →
  String.length (setw_setfill 5 "0"%char (pretty nstep)) = 5.
Proof.
  intros Hn. unfold setw_setfill.
  rewrite string_length_app, string_length_fill.
  assert (String.length (pretty nstep) ≤ 5); [| lia].
  destruct nstep as [|p|p]; [simpl; lia | | lia].
  unfold pretty, pretty_Z, pretty, pretty_positive, pretty, pretty_N.
  rewrite decide_False by done.
  pose proof (string_length_pretty_N_go 5 (N.pos p) EmptyString) as Hlen.
  etrans; [apply Hlen; simpl; lia | done].
Qed.

Section ParticlesVTK_name.
Context {Real : Type} (show_Real : Real → string).
Implicit Types (pc : MDParticleContainer Real).

(** C7, as amended: for every step index the file is named particles_,
    then the decimal step index filled on the left with zeros to five
    characters (exactly five for a step index from 0 to 99999), then .vtk;
    a file that is written begins with four lines: the version 3.0 line,
    the title, ASCII, and the polygon-data dataset type. *)
Theorem vtk_name_and_four_line_header pc (nstep : Z) (w : World) :
  vtkfile_name nstep
  = "particles_"
      +:+ (fill (5 - String.length (pretty nstep)) "0"%char +:+ pretty nstep)
      +:+ ".vtk"
  ∧ ((0 ≤ nstep < 100000)%Z →
     String.length
       (fill (5 - String.length (pretty nstep)) "0"%char +:+ pretty nstep) = 5)
  ∧ (particle_total pc ≠ 0 →
     (Z.of_nat (particle_total pc) ≤ Long.max_signed)%Z →
     writable w (vtkfile_name nstep) = true →
     ∃ w' rest, WriteParticlesVTK show_Real pc nstep w = Some w'
       ∧ files w' !! vtkfile_name nstep
         = Some (unlines ("# vtk DataFile Version 3.0" :: "MD particles"
                            :: "ASCII" :: "DATASET POLYDATA" :: rest))).
Proof.
  split; [| split].
  - unfold vtkfile_name, Concatenate, setw_setfill.
    by rewrite !string_app_assoc.
  - apply string_length_step_field.
  - intros Hne Hmax Hopen.
    destruct (WriteParticlesVTK_writes show_Real pc nstep w Hne Hmax Hopen)
      as (w' & Hrun & Hfiles & _).
    exists w'. eexists. split; [done |].
    rewrite Hfiles, lookup_insert_eq. unfold vtk_lines, header_lines.
    reflexivity.
Qed.

End ParticlesVTK_name.

(** ** WritePlotFile *)

Lemma insert_fill {A} (l : list A) (m : nat) (d x : A) :
  0 < m →
  <[length l := x]> (l ++ replicate m d) = (l ++ [x]) ++ replicate (m - 1) d.
Proof.
  intros Hm. destruct m as [|m]; [lia |].
  rewrite insert_app_r_alt, Nat.sub_diag by lia. simpl.
  by rewrite Nat.sub_0_r, <- app_assoc.
Qed.

(** Assigning [x] to the entries 0, ..., m-1 in turn turns the vector of [m]
    default entries into the vector of [m] entries [x]. *)
Lemma for_range_assign {A} (m : nat) (d x : A) :
  for_range (Z.of_nat m) (λ lev v, vec_set v lev x) (replicate m d)
  = Some (replicate m x).
Proof.
  destruct (for_range_inv
    (λ i v, v = replicate (Z.to_nat i) x ++ replicate (m - Z.to_nat i) d)
    (Z.of_nat m) (λ lev v, vec_set v lev x) (replicate m d))
    as (v & Hrun & Hv); [lia | by rewrite Nat.sub_0_r | |].
  - intros i v Hi ->. eexists. split.
    + apply vec_set_Some. rewrite length_app, !length_replicate. lia.
    + replace (Z.to_nat i) with (length (replicate (Z.to_nat i) x)) at 1
        by apply length_replicate.
      rewrite insert_fill by lia.
      replace (Z.to_nat (i + 1)) with (S (Z.to_nat i)) by lia.
      rewrite replicate_S_end. f_equal. f_equal. lia.
  - rewrite Hrun, Hv, Nat2Z.id, Nat.sub_diag. simpl. by rewrite app_nil_r.
Qed.

Section PlotFile.
Context {Real Geometry DistributionMapping : Type}.
Context (Real_zero : Real) (Domain : Geometry → Box).
Context (DistributionMapping_of : BoxArray → DistributionMapping).
Implicit Types (pc : MDParticleContainer Real) (geom : list Geometry).
Implicit Types (mf : list (option (MultiFab Real DistributionMapping))).

Local Abbreviation level_field := (level_field Real_zero Domain DistributionMapping_of).
Local Abbreviation build_level :=
  (build_level Real_zero Domain DistributionMapping_of).
Local Abbreviation WritePlotFile :=
  (WritePlotFile Real_zero Domain DistributionMapping_of).

(** One iteration of the per-level loop puts the level's field array at
    its index in both vectors. *)
Lemma build_level_step geom (i : Z) (g : Geometry) mf output_cc :
  (0 ≤ i)%Z → geom !! Z.to_nat i = Some g →
  Z.to_nat i < length mf → Z.to_nat i < length output_cc →
  build_level geom ["dummy"] i (mf, output_cc)
  = Some (<[Z.to_nat i := Some (level_field g)]> mf,
          <[Z.to_nat i := Some (level_field g)]> output_cc).
Proof.
  intros Hi Hg Hmf Hcc. unfold build_level.
  rewrite vec_get_lookup, Hg by done. cbn [mbind option_bind].
  rewrite vec_set_Some by lia. cbn [mbind option_bind].
  rewrite vec_get_lookup, list_lookup_insert_eq by done.
  cbn [mbind option_bind id].
  rewrite vec_set_Some by (rewrite length_insert; lia).
  cbn [mbind option_bind].
  rewrite vec_get_lookup, list_lookup_insert_eq
    by (done || by rewrite length_insert).
  cbn [mbind option_bind].
  rewrite vec_set_Some by lia. cbn [mbind option_bind].
  by rewrite list_insert_insert_eq.
Qed.

(** The per-level loop fills both vectors with the field arrays of the
    levels, in order. *)
Lemma build_levels geom :
  let n := length geom in
  let fields := (λ g, Some (level_field g)) <$> geom in
  for_range (Z.of_nat n) (build_level geom ["dummy"])
    (replicate n None, replicate n None)
  = Some (fields, fields).
Proof.
  intros n fields.
  destruct (for_range_inv
    (λ i st, st.1 = ((λ g, Some (level_field g)) <$> take (Z.to_nat i) geom)
                      ++ replicate (n - Z.to_nat i) None
             ∧ st.2 = st.1)
    (Z.of_nat n) (build_level geom ["dummy"])
    (replicate n None, replicate n None))
    as ([mf cc] & Hrun & Hmf & Hcc); [lia | by rewrite Nat.sub_0_r | |].
  - intros i [mf cc] Hi [Hmf Hcc]. simpl in Hmf, Hcc. subst cc.
    destruct (lookup_lt_is_Some_2 geom (Z.to_nat i)) as [g Hg];
      [unfold n in Hi; lia |].
    assert (length mf = n) as Hlen.
    { rewrite Hmf, length_app, length_fmap, length_take, length_replicate.
      unfold n in *. lia. }
    eexists. split.
    + apply (build_level_step geom _ g); [lia | done | lia | lia].
    + simpl. split; [| done]. rewrite Hmf.
      replace (Z.to_nat i)
        with (length ((λ g, Some (level_field g)) <$> take (Z.to_nat i) geom))
        at 1 by (rewrite length_fmap, length_take; unfold n in Hi; lia).
      rewrite insert_fill by lia.
      replace (Z.to_nat (i + 1)) with (S (Z.to_nat i)) by lia.
      rewrite (take_S_r _ _ _ Hg), fmap_app. simpl. f_equal. f_equal. lia.
  - simpl in Hmf, Hcc. subst cc. rewrite Hrun. f_equal.
    rewrite Nat2Z.id, Nat.sub_diag in Hmf. simpl in Hmf.
    rewrite app_nil_r in Hmf. unfold n in Hmf. rewrite firstn_all in Hmf.
    by subst mf.
Qed.

(** A geometry sequence of n >= 1 levels, n a value of [int]: the export
    builds the field arrays of the levels, hands them to the structured-grid
    writer with the name list, the geometries, time 0.0, the step index for
    every level and n-1 ratios of 2, and then writes the particle
    checkpoint into the same bundle. *)
Lemma WritePlotFile_runs pc geom (nstep : Z) :
  let n := length geom in
  let fields := (λ g, Some (level_field g)) <$> geom in
  let pltfile := Concatenate "plt" nstep 5 in
  1 ≤ n → (Z.of_nat n ≤ Int.max_signed)%Z →
  WritePlotFile pc geom nstep
  = Some (mkRun fields
      [WriteMultiLevelPlotfile pltfile (Z.of_nat n) fields ["dummy"] geom
         Real_zero (replicate n nstep) (replicate (n - 1) (mkIntVect 2 2 2));
       Checkpoint pc pltfile "particle0" true
         ["vx"; "vy"; "vz"; "ax"; "ay"; "az"]]).
Proof.
  intros n fields pltfile Hn Hmax. unfold WritePlotFile. fold n.
  rewrite Int_wrap_id by (unfold Int.min_signed; lia).
  rewrite decide_False by lia.
  change (vec_set (replicate 1 EmptyString) 0 "dummy") with (Some ["dummy"]).
  cbn [mbind option_bind]. rewrite Nat2Z.id.
  pose proof (build_levels geom) as Hbuild. cbv zeta in Hbuild.
  fold n fields in Hbuild. rewrite Hbuild. cbn [mbind option_bind].
  unfold Int.sub. rewrite Int_wrap_id
    by (unfold Int.min_signed, Int.max_signed in *; lia).
  rewrite Z.max_l by lia.
  replace (Z.of_nat n - 1)%Z with (Z.of_nat (n - 1)) by lia.
  rewrite Nat2Z.id, for_range_assign. cbn [mbind option_bind].
  reflexivity.
Qed.

(** C4: for the empty geometry sequence the export returns at once: it
    builds no field array and calls neither writer, and the result is an
    ordinary return.  It is the only early exit: a sequence with a level
    (of a length that is a value of [int]) gets its field arrays built and
    both writers called. *)
Theorem empty_geometry_is_noop pc (nstep : Z) :
  WritePlotFile pc [] nstep = Some (mkRun [] [])
  ∧ (∀ geom, (Z.of_nat (length geom) ≤ Int.max_signed)%Z →
       ∃ r, WritePlotFile pc geom nstep = Some r
         ∧ (calls r = [] ↔ geom = [])
         ∧ (field_arrays r = [] ↔ geom = [])
         ∧ (geom ≠ [] → ∃ call1 call2, calls r = [call1; call2])).
Proof.
  split; [done |]. intros geom Hmax.
  destruct geom as [|g geom]; [by eexists |].
  eexists. split; [apply WritePlotFile_runs; simpl in *; lia |].
  cbn [calls field_arrays]. repeat split; try done. eauto.
Qed.

(** C5: for a geometry sequence of n >= 1 levels (n a value of [int]) the
    structured-grid writer is handed n field arrays, one for each level,
    and a sequence of n-1 refinement ratios, each 2 along the three axes;
    for one level that sequence is empty. *)
Theorem field_arrays_and_ratios pc geom (nstep : Z) :
  let n := length geom in
  1 ≤ n → (Z.of_nat n ≤ Int.max_signed)%Z →
  ∃ plotfilename output_cc varnames time level_steps refRatio call2,
    WritePlotFile pc geom nstep
    = Some (mkRun output_cc
        [WriteMultiLevelPlotfile plotfilename (Z.of_nat n) output_cc varnames
           geom time level_steps refRatio; call2])
    ∧ length output_cc = n
    ∧ Forall is_Some output_cc
    ∧ length refRatio = n - 1
    ∧ Forall (λ r, r = mkIntVect 2 2 2) refRatio
    ∧ (n = 1 → refRatio = []).
Proof.
  intros n Hn Hmax. do 7 eexists.
  split; [by apply WritePlotFile_runs |].
  split; [by rewrite length_fmap |].
  split; [apply Forall_fmap, Forall_true; by eexists |].
  split; [by rewrite length_replicate |].
  split; [apply Forall_replicate; done |].
  intros H1. subst n. by rewrite H1.
Qed.

(** C10: the field array of every level handed to the writer lies on a box
    array of one box, the domain of the level's geometry, with the
    distribution mapping made from that box array alone, one component, no
    ghost cells and the value zero; the field arrays are the same whatever
    the particle container is. *)
Theorem level_field_is_one_box pc geom (nstep : Z) :
  let n := length geom in
  1 ≤ n → (Z.of_nat n ≤ Int.max_signed)%Z →
  ∃ plotfilename output_cc varnames time level_steps refRatio call2,
    WritePlotFile pc geom nstep
    = Some (mkRun output_cc
        [WriteMultiLevelPlotfile plotfilename (Z.of_nat n) output_cc varnames
           geom time level_steps refRatio; call2])
    ∧ (∀ (lev : nat) (g : Geometry), geom !! lev = Some g →
         ∃ m, output_cc !! lev = Some (Some m)
           ∧ boxArray m = [Domain g]
           ∧ DistributionMap m = DistributionMapping_of (boxArray m)
           ∧ nComp m = 1%Z ∧ nGrow m = 0%Z ∧ fab_value m = Some Real_zero)
    ∧ (∀ pc', field_arrays <$> WritePlotFile pc' geom nstep = Some output_cc).
Proof.
  intros n Hn Hmax. do 7 eexists.
  split; [by apply WritePlotFile_runs |]. split.
  - intros lev g Hg. exists (level_field g).
    by rewrite list_lookup_fmap, Hg.
  - intros pc'. by rewrite WritePlotFile_runs.
Qed.

End PlotFile.

(** * The theorems at the example population and geometry *)

(** C1 at the example: three particles counted, declared and listed. *)
Lemma points_count_is_particle_total_witness :
  (Z.of_nat (particle_total Example.pc) ≤ Long.max_signed)%Z
  ∧ particle_total Example.pc ≠ 0
  ∧ writable Example.world (vtkfile_name 7) = true
  ∧ count_particles Example.pc = 3%Z
  ∧ ∃ w', WriteParticlesVTK pretty Example.pc 7 Example.world = Some w'
      ∧ is_Some (files w' !! vtkfile_name 7)
      ∧ length (point_line pretty <$> all_particles Example.pc) = 3.
Proof.
  assert ((Z.of_nat (particle_total Example.pc) ≤ Long.max_signed)%Z) as H1
    by (by vm_compute).
  assert (particle_total Example.pc ≠ 0) as H2 by (by vm_compute).
  assert (writable Example.world (vtkfile_name 7) = true) as H3 by reflexivity.
  destruct (points_count_is_particle_total pretty Example.pc 7 Example.world H1)
    as [Hcount Hfile].
  destruct (Hfile H2 H3) as (w' & Hrun & Htext & Hlen).
  split_and!; [exact H1 | exact H2 | exact H3 | exact Hcount |].
  exists w'. split_and!; [exact Hrun | by rewrite Htext | exact Hlen].
Defined.

(** C2 at the example: the third particle owns row 2 of POINTS and of az. *)
Lemma rows_share_particle_order_witness :
  particle_total Example.pc ≠ 0
  ∧ (Z.of_nat (particle_total Example.pc) ≤ Long.max_signed)%Z
  ∧ writable Example.world (vtkfile_name 7) = true
  ∧ collect_particles Example.pc = host_of (all_particles Example.pc)
  ∧ ∃ p, all_particles Example.pc !! 2 = Some p
      ∧ (point_line pretty <$> all_particles Example.pc) !! 2
        = Some (point_line pretty p)
      ∧ scalar_block pretty "az" PIdx.az (all_particles Example.pc) !! (2 + 2)
        = Some (pretty (rdata p PIdx.az)).
Proof.
  assert (particle_total Example.pc ≠ 0) as H1 by (by vm_compute).
  assert ((Z.of_nat (particle_total Example.pc) ≤ Long.max_signed)%Z) as H2
    by (by vm_compute).
  assert (writable Example.world (vtkfile_name 7) = true) as H3 by reflexivity.
  destruct (rows_share_particle_order pretty Example.pc 7 Example.world H1 H2 H3)
    as (Hhost & _ & Hrows).
  split_and!; [exact H1 | exact H2 | exact H3 | exact Hhost |].
  apply (Hrows 2 "az" PIdx.az). vm_compute. lia.
Defined.

(** C3 at the empty example population. *)
Lemma empty_population_skips_export_witness :
  particle_total Example.pc_empty = 0
  ∧ ∃ w', WriteParticlesVTK pretty Example.pc_empty 7 Example.world = Some w'
      ∧ stdout w'
        = stdout Example.world
            ++ ["WriteParticlesVTK: no particles to write." +:+ endl]
      ∧ files w' = files Example.world.
Proof.
  assert (particle_total Example.pc_empty = 0) as H1 by reflexivity.
  split; [exact H1 |].
  exact (empty_population_skips_export pretty Example.pc_empty 7 Example.world H1).
Defined.

(** C6 at the example, with no file name writable. *)
Lemma open_failure_aborts_export_witness :
  writable Example.world_readonly (vtkfile_name 7) = false
  ∧ count_particles Example.pc ≠ 0%Z
  ∧ WriteParticlesVTK pretty Example.pc 7 Example.world_readonly
    = Some (Print ("WriteParticlesVTK: could not open file "
                     +:+ vtkfile_name 7 +:+ endl) Example.world_readonly).
Proof.
  assert (writable Example.world_readonly (vtkfile_name 7) = false) as H1
    by reflexivity.
  assert (count_particles Example.pc ≠ 0%Z) as H2 by (by vm_compute).
  destruct (open_failure_aborts_export pretty Example.pc 7
              Example.world_readonly H1) as (notice & Hrun & _ & _ & Hnotice).
  split_and!; [exact H1 | exact H2 |]. by rewrite Hrun, (Hnotice H2).
Defined.

(** C7, as stated, fails: the lines before the POINTS block are four, and the
    dataset type is declared on the fourth of them, not within the first
    three lines of the file. *)
Lemma vtk_header_is_not_three_lines :
  ∃ w' text,
    WriteParticlesVTK pretty Example.pc 7 Example.world = Some w'
    ∧ files w' !! vtkfile_name 7 = Some text
    ∧ take 3 (lines text) = ["# vtk DataFile Version 3.0"; "MD particles"; "ASCII"]
    ∧ ("DATASET POLYDATA" ∉ take 3 (lines text))
    ∧ lines text !! 3 = Some "DATASET POLYDATA"
    ∧ lines text !! 4 = Some "POINTS 3 double".
Proof.
  eexists _, _. split; [vm_compute; reflexivity |].
  split; [vm_compute; reflexivity |].
  split; [vm_compute; reflexivity |].
  split; [| split; vm_compute; reflexivity].
  apply (bool_decide_unpack _). vm_compute. exact I.
Qed.

(** C7, as amended, at step 7 of the example. *)
Lemma vtk_name_and_four_line_header_witness :
  (0 ≤ 7 < 100000)%Z
  ∧ particle_total Example.pc ≠ 0
  ∧ (Z.of_nat (particle_total Example.pc) ≤ Long.max_signed)%Z
  ∧ writable Example.world (vtkfile_name 7) = true
  ∧ vtkfile_name 7 = "particles_00007.vtk"
  ∧ ∃ w' rest, WriteParticlesVTK pretty Example.pc 7 Example.world = Some w'
      ∧ files w' !! vtkfile_name 7
        = Some (unlines ("# vtk DataFile Version 3.0" :: "MD particles"
                           :: "ASCII" :: "DATASET POLYDATA" :: rest)).
Proof.
  assert ((0 ≤ 7 < 100000)%Z) as H0 by lia.
  assert (particle_total Example.pc ≠ 0) as H1 by (by vm_compute).
  assert ((Z.of_nat (particle_total Example.pc) ≤ Long.max_signed)%Z) as H2
    by (by vm_compute).
  assert (writable Example.world (vtkfile_name 7) = true) as H3 by reflexivity.
  destruct (vtk_name_and_four_line_header pretty Example.pc 7 Example.world)
    as (Hname & Hlen & Hfile).
  pose proof (Hlen H0) as _.
  split_and!;
    [exact (proj1 H0) | exact (proj2 H0) | exact H1 | exact H2 | exact H3
    | by rewrite Hname |].
  exact (Hfile H1 H2 H3).
Defined.

(** C8 at the example: three cells, the last one on point 2. *)
Lemma vertices_block_one_cell_per_point_witness :
  (1 ≤ Z.of_nat (particle_total Example.pc))%Z
  ∧ (2 * Z.of_nat (particle_total Example.pc) ≤ Long.max_signed)%Z
  ∧ writable Example.world (vtkfile_name 7) = true
  ∧ length (vertex_line <$> seqZ 0 (Z.of_nat (particle_total Example.pc))) = 3
  ∧ (vertex_line <$> seqZ 0 (Z.of_nat (particle_total Example.pc))) !! 2
    = Some "1 2".
Proof.
  assert ((1 ≤ Z.of_nat (particle_total Example.pc))%Z) as H1 by (by vm_compute).
  assert ((2 * Z.of_nat (particle_total Example.pc) ≤ Long.max_signed)%Z) as H2
    by (by vm_compute).
  assert (writable Example.world (vtkfile_name 7) = true) as H3 by reflexivity.
  destruct (vertices_block_one_cell_per_point pretty Example.pc 7
              Example.world H1 H2 H3) as (_ & Hlen & Hline).
  split_and!; [exact H1 | exact H2 | exact H3 | exact Hlen |].
  apply (Hline 2). vm_compute. lia.
Defined.

(** C9 at the example. *)
Lemma host_vectors_hold_np_total_witness :
  (Z.of_nat (particle_total Example.pc) ≤ Long.max_signed)%Z
  ∧ Z.of_nat (length (azs (collect_particles Example.pc)))
    = count_particles Example.pc
  ∧ is_Some (write_vtk pretty (count_particles Example.pc)
               (collect_particles Example.pc) EmptyString).
Proof.
  assert ((Z.of_nat (particle_total Example.pc) ≤ Long.max_signed)%Z) as H1
    by (by vm_compute).
  destruct (host_vectors_hold_np_total pretty Example.pc H1)
    as (Hlen & _ & Hrun).
  split; [exact H1 |]. split; [| exact (Hrun EmptyString)].
  rewrite Forall_forall in Hlen. apply Hlen. set_solver.
Defined.

(** C4 at the empty and at the two-level example geometry. *)
Lemma empty_geometry_is_noop_witness :
  (Z.of_nat (length Example.geom) ≤ Int.max_signed)%Z
  ∧ Example.geom ≠ []
  ∧ WritePlotFile 0%Z id Example.dmap Example.pc [] 7 = Some (mkRun [] [])
  ∧ ∃ r call1 call2,
      WritePlotFile 0%Z id Example.dmap Example.pc Example.geom 7 = Some r
      ∧ calls r = [call1; call2].
Proof.
  assert ((Z.of_nat (length Example.geom) ≤ Int.max_signed)%Z) as H1
    by (by vm_compute).
  assert (Example.geom ≠ []) as H2 by done.
  destruct (empty_geometry_is_noop 0%Z id Example.dmap Example.pc 7)
    as [Hempty Hrest].
  destruct (Hrest Example.geom H1) as (r & Hrun & _ & _ & Hcalls).
  destruct (Hcalls H2) as (call1 & call2 & Hr).
  split_and!; [exact H1 | exact H2 | exact Hempty |].
  by exists r, call1, call2.
Defined.

(** C5 at the two-level example geometry: two arrays, one ratio. *)
Lemma field_arrays_and_ratios_witness :
  1 ≤ length Example.geom
  ∧ (Z.of_nat (length Example.geom) ≤ Int.max_signed)%Z
  ∧ ∃ output_cc refRatio,
      (calls <$> WritePlotFile 0%Z id Example.dmap Example.pc Example.geom 7)
        ≫= head
      = Some (WriteMultiLevelPlotfile "plt00007" 2 output_cc ["dummy"]
                Example.geom 0%Z [7%Z; 7%Z] refRatio)
      ∧ length output_cc = 2 ∧ refRatio = [mkIntVect 2 2 2].
Proof.
  assert (1 ≤ length Example.geom) as H1 by (vm_compute; lia).
  assert ((Z.of_nat (length Example.geom) ≤ Int.max_signed)%Z) as H2
    by (by vm_compute).
  destruct (field_arrays_and_ratios 0%Z id Example.dmap Example.pc
              Example.geom 7 H1 H2)
    as (name & cc & vars & time & steps & ratio & call2 & Hrun & Hlen & _).
  split_and!; [exact H1 | exact H2 |].
  exists cc, ratio. rewrite Hrun. vm_compute in Hrun.
  by simplify_eq.
Defined.

(** C10 at the two-level example geometry: level 1 lies on its one cube. *)
Lemma level_field_is_one_box_witness :
  1 ≤ length Example.geom
  ∧ (Z.of_nat (length Example.geom) ≤ Int.max_signed)%Z
  ∧ ∃ output_cc m,
      field_arrays <$> WritePlotFile 0%Z id Example.dmap Example.pc_empty
                         Example.geom 7 = Some output_cc
      ∧ output_cc !! 1 = Some (Some m)
      ∧ boxArray m = [Example.cube 7].
Proof.
  assert (1 ≤ length Example.geom) as H1 by (vm_compute; lia).
  assert ((Z.of_nat (length Example.geom) ≤ Int.max_signed)%Z) as H2
    by (by vm_compute).
  destruct (level_field_is_one_box 0%Z id Example.dmap Example.pc
              Example.geom 7 H1 H2)
    as (name & cc & vars & time & steps & ratio & call2 & Hrun & Hlev & Hpc).
  destruct (Hlev 1 (Example.cube 7) eq_refl) as (m & Hm & Hba & _).
  split_and!; [exact H1 | exact H2 |].
  exists cc, m. split_and!; [exact (Hpc Example.pc_empty) | exact Hm | exact Hba].
Defined.

(** * Further properties of the two exports *)

(** ** Decimal text and the padded step field *)

Lemma fill_add (a b : nat) (c : ascii) :
  fill (a + b) c = fill a c +:+ fill b c.
Proof.
  induction a as [|a IH]; [done |]. simpl. by rewrite IH, string_app_cons.
Qed.

Lemma string_app_inj_r (a b c : string) : a +:+ c = b +:+ c → a = b.
Proof.
  revert b. induction a as [|x a IH]; intros [|y b] Heq; [done | | |].
  - apply (f_equal String.length) in Heq.
    rewrite string_app_nil_l, string_app_cons in Heq. simpl in Heq.
    rewrite string_length_app in Heq. lia.
  - apply (f_equal String.length) in Heq.
    rewrite string_app_nil_l, string_app_cons in Heq. simpl in Heq.
    rewrite string_length_app in Heq. lia.
  - rewrite !string_app_cons in Heq. simplify_eq. f_equal. by apply IH.
Qed.

Lemma pretty_N_char_zero (x : N) :
  (x < 10)%N → pretty_N_char x = "0"%char → x = 0%N.
Proof. intros Hx Hc. by apply (pretty_N_char_inj x 0). Qed.

(** The decimal text of a positive number starts with a digit that is not
    zero, whatever text follows it. *)
Lemma pretty_N_go_head (x : N) (s : string) :
  (0 < x)%N → ∃ c r, pretty_N_go x s = String c r ∧ c ≠ "0"%char.
Proof.
  revert s. induction (N.lt_wf_0 x) as [x _ IH]. intros s Hx.
  rewrite pretty_N_go_step by done.
  destruct (decide (x `div` 10 = 0)%N) as [Hz|Hnz].
  - rewrite Hz, pretty_N_go_0. eexists _, _. split; [done |].
    intros Hc. apply pretty_N_char_zero in Hc; [| by apply N.mod_lt].
    apply N.div_small_iff in Hz; [| done].
    rewrite N.mod_small in Hc by done. lia.
  - apply IH; [apply N.div_lt; lia | by apply N.neq_0_lt_0].
Qed.

Lemma pretty_Z_head_zero (z : Z) (r : string) :
  pretty z = String "0"%char r → z = 0%Z.
Proof.
  destruct z as [|p|p]; [done | |].
  - unfold pretty, pretty_Z, pretty, pretty_positive, pretty, pretty_N.
    rewrite decide_False by done.
    destruct (pretty_N_go_head (N.pos p) EmptyString) as (c & r' & -> & Hc);
      [lia |].
    intros Heq. by simplify_eq.
  - unfold pretty, pretty_Z. rewrite string_app_cons. intros Heq.
    by simplify_eq.
Qed.

Lemma pretty_Z_nonempty (z : Z) : pretty z ≠ EmptyString.
Proof.
  destruct z as [|p|p]; [done | | done].
  unfold pretty, pretty_Z, pretty, pretty_positive, pretty, pretty_N.
  rewrite decide_False by done.
  destruct (pretty_N_go_head (N.pos p) EmptyString) as (c & r' & -> & Hc);
    [lia | done].
Qed.

(** A text that is the decimal of [b] behind at least one more zero is not
    the decimal of any [a]. *)
Lemma pretty_Z_not_zero_padded (a b : Z) (k : nat) :
  pretty a ≠ fill (S k) "0"%char +:+ pretty b.
Proof.
  intros Heq. simpl in Heq. rewrite string_app_cons in Heq.
  pose proof (pretty_Z_head_zero _ _ Heq) as ->.
  change (pretty 0%Z) with (String "0"%char EmptyString) in Heq.
  simplify_eq. destruct k as [|k]; simpl in *.
  - rewrite string_app_nil_l in *. by eapply pretty_Z_nonempty.
  - rewrite string_app_cons in *. done.
Qed.

(** The step field names the step: two step indices with the same padded
    field are the same. *)
Lemma setw_setfill_pretty_inj (a b : Z) :
  setw_setfill 5 "0"%char (pretty a) = setw_setfill 5 "0"%char (pretty b) →
  a = b.
Proof.
  unfold setw_setfill.
  set (ka := 5 - String.length (pretty a)).
  set (kb := 5 - String.length (pretty b)). intros Heq.
  destruct (lt_eq_lt_dec ka kb) as [[Hlt|Heqk]|Hgt].
  - replace kb with (ka + S (kb - ka - 1)) in Heq by lia.
    rewrite fill_add, string_app_assoc in Heq.
    apply (inj (String.app _)) in Heq.
    by apply pretty_Z_not_zero_padded in Heq.
  - rewrite Heqk in Heq. apply (inj (String.app _)) in Heq.
    by apply (inj pretty).
  - replace ka with (kb + S (ka - kb - 1)) in Heq by lia.
    rewrite fill_add, string_app_assoc in Heq.
    apply (inj (String.app _)) in Heq. symmetry in Heq.
    by apply pretty_Z_not_zero_padded in Heq.
Qed.

Lemma Concatenate_inj (root : string) (a b : Z) :
  Concatenate root a 5 = Concatenate root b 5 → a = b.
Proof.
  unfold Concatenate. intros Heq. apply (inj (String.app _)) in Heq.
  by apply setw_setfill_pretty_inj.
Qed.

Lemma vtkfile_name_inj (a b : Z) : vtkfile_name a = vtkfile_name b → a = b.
Proof.
  unfold vtkfile_name. intros Heq. apply string_app_inj_r in Heq.
  by apply Concatenate_inj in Heq.
Qed.

(** ** The file as lines of text *)

Lemma newline_free_app (a b : string) :
  newline_free (a +:+ b) = newline_free a && newline_free b.
Proof.
  induction a as [|x a IH]; [done |].
  rewrite string_app_cons. simpl. by case_decide.
Qed.

Lemma pretty_N_char_newline_free (x : N) :
  pretty_N_char x ≠ Ascii.ascii_of_nat 10.
Proof. unfold pretty_N_char. by repeat case_match. Qed.

Lemma newline_free_pretty_N_go (x : N) (s : string) :
  newline_free s = true → newline_free (pretty_N_go x s) = true.
Proof.
  revert s. induction (N.lt_wf_0 x) as [x _ IH]. intros s Hs.
  destruct (decide (x = 0)%N) as [->|Hx]; [by rewrite pretty_N_go_0 |].
  rewrite pretty_N_go_step by lia. apply IH; [apply N.div_lt; lia |].
  simpl. by rewrite decide_False by apply pretty_N_char_newline_free.
Qed.

Lemma newline_free_pretty_Z (z : Z) : newline_free (pretty z) = true.
Proof.
  assert (∀ p : positive, newline_free (pretty p) = true) as Hpos.
  { intros p. unfold pretty, pretty_positive, pretty, pretty_N.
    rewrite decide_False by done. by apply newline_free_pretty_N_go. }
  destruct z as [|p|p]; [done | apply Hpos |].
  unfold pretty, pretty_Z. rewrite newline_free_app, Hpos. done.
Qed.

Section FileLines.
Context {Real : Type} (show_Real : Real → string).
Implicit Types (pc : MDParticleContainer Real) (ps : list (ParticleType Real)).

(** The text form of a real keeps to its line. *)
Hypothesis show_Real_line : ∀ r, newline_free (show_Real r) = true.

Lemma newline_free_vtk_lines (n m : Z) ps :
  Forall (λ l, newline_free l = true) (vtk_lines show_Real n m ps).
Proof.
  unfold vtk_lines, header_lines, points_block, vertices_block,
    point_data_block, scalar_block, scalar_rows, point_line, vertex_line.
  repeat (rewrite ?Forall_app, ?Forall_cons, ?Forall_nil, ?Forall_fmap;
          split_and?);
    try (apply Forall_true; intros ?; unfold compose);
    rewrite ?newline_free_app, ?newline_free_pretty_Z, ?show_Real_line;
    done.
Qed.

Lemma length_points_block (n : Z) ps :
  length (points_block show_Real n ps) = length ps + 2.
Proof.
  unfold points_block. simpl. rewrite length_app, length_fmap. simpl. lia.
Qed.

Lemma length_vertices_block (n m : Z) :
  length (vertices_block n m) = Z.to_nat n + 2.
Proof.
  unfold vertices_block. simpl.
  rewrite length_app, length_fmap, length_seqZ. simpl. lia.
Qed.

Lemma length_scalar_block (name : string) (k : nat) ps :
  length (scalar_block show_Real name k ps) = length ps + 3.
Proof.
  unfold scalar_block, scalar_rows. simpl.
  rewrite length_app, length_fmap. simpl. lia.
Qed.

Lemma length_point_data_block (n : Z) ps :
  length (point_data_block show_Real n ps) = 6 * length ps + 19.
Proof.
  unfold point_data_block. cbn [length].
  rewrite !length_app, !length_scalar_block. lia.
Qed.

Lemma length_vtk_lines (m : Z) ps :
  length (vtk_lines show_Real (Z.of_nat (length ps)) m ps)
  = 8 * length ps + 27.
Proof.
  unfold vtk_lines.
  rewrite !length_app, length_points_block, length_vertices_block,
    length_point_data_block.
  simpl. lia.
Qed.

(** The row of the particle at index [i] in the block of attribute slot
    [j] of the file's lines. *)
Lemma vtk_lines_scalar_row (m : Z) ps (i j : nat) (p : ParticleType Real) :
  ps !! i = Some p → j < 6 →
  vtk_lines show_Real (Z.of_nat (length ps)) m ps
    !! (2 * length ps + 11 + j * (length ps + 3) + i)
  = Some (show_Real (rdata p j)).
Proof.
  intros Hp Hj. pose proof (lookup_lt_Some _ _ _ Hp) as Hi.
  unfold vtk_lines, point_data_block.
  rewrite lookup_app_r by (simpl; lia).
  rewrite lookup_app_r by (rewrite length_points_block; simpl; lia).
  rewrite lookup_app_r
    by (rewrite length_points_block, length_vertices_block; simpl; lia).
  rewrite length_points_block, length_vertices_block, Nat2Z.id.
  change (length header_lines) with 4.
  assert (∀ name k rest q,
    q = i + 2 → k = j →
    (scalar_block show_Real name k ps ++ rest) !! q
    = Some (show_Real (rdata p j))) as Hhit.
  { intros name k rest q -> ->.
    rewrite lookup_app_l by (rewrite length_scalar_block; lia).
    unfold scalar_block, scalar_rows.
    replace (i + 2) with (S (S i)) by lia. rewrite !lookup_cons.
    rewrite lookup_app_l by (by rewrite length_fmap).
    by rewrite list_lookup_fmap, Hp. }
  assert (∀ name k rest q,
    length ps + 3 ≤ q →
    (scalar_block show_Real name k ps ++ rest) !! q
    = rest !! (q - (length ps + 3))) as Hskip.
  { intros name k rest q Hq.
    rewrite lookup_app_r by (rewrite length_scalar_block; lia).
    by rewrite length_scalar_block. }
  destruct (decide (j = 0)) as [->|]; [|
  destruct (decide (j = 1)) as [->|]; [|
  destruct (decide (j = 2)) as [->|]; [|
  destruct (decide (j = 3)) as [->|]; [|
  destruct (decide (j = 4)) as [->|]; [|
  assert (j = 5) as -> by lia]]]]];
    match goal with
    | |- (_ :: ?l) !! ?q = _ =>
        replace q with (S (q - 1)) by lia; rewrite lookup_cons
    end;
    repeat (rewrite Hskip by lia);
    first [ apply Hhit; [lia | reflexivity]
          | rewrite <- (app_nil_r (scalar_block _ _ _ _));
            apply Hhit; [lia | reflexivity] ].
Qed.

End FileLines.

(** ** What the point-cloud export reads and what it leaves alone *)

Lemma foldl_ext_in {A B} (f g : A → B → A) (l : list B) (a : A) :
  (∀ a x, x ∈ l → f a x = g a x) → foldl f a l = foldl g a l.
Proof.
  revert a. induction l as [|x l IH]; intros a Hfg; [done |]. simpl.
  rewrite Hfg by left. apply IH. intros a' y Hy. apply Hfg. by right.
Qed.

Section ParticlesVTK_more.
Context {Real : Type} (show_Real : Real → string).
Implicit Types (pc : MDParticleContainer Real) (plev : ParticleLevel Real).
Implicit Types (ps : list (ParticleType Real)).

Lemma host_of_agree ps ps' :
  Forall2 particle_agree ps ps' → host_of ps = host_of ps'.
Proof.
  intros Hps. unfold host_of.
  assert (∀ f : ParticleType Real → Real,
    (∀ p p', particle_agree p p' → f p = f p') → f <$> ps = f <$> ps') as Hmap.
  { intros f Hf. induction Hps as [|p p' ps ps' Hp _ IH]; [done |].
    rewrite !fmap_cons. f_equal; [by apply Hf | done]. }
  f_equal; apply Hmap; intros p p' (Hx & Hy & Hz & Hr);
    first [done | apply Hr; unfold PIdx.ncomps; compute; lia].
Qed.

Lemma tile_particles_agree (t t' : ParticleTile Real) :
  tile_agree t t' →
  Forall2 particle_agree (tile_particles t) (tile_particles t').
Proof.
  intros [Hn Hp]. unfold tile_particles. rewrite <- Hn.
  apply Forall2_fmap, Forall_Forall2_diag, Forall_forall.
  intros i Hi. apply Hp. apply elem_of_seq in Hi. lia.
Qed.

Lemma count_tiles_agree plev plev' (acc : Z) :
  level_agree plev plev' → count_tiles plev acc = count_tiles plev' acc.
Proof.
  unfold count_tiles. intros Hl. revert acc.
  induction Hl as [|kv kv' plev plev' [Hn _] _ IH]; intros acc; [done |].
  simpl. rewrite Hn. apply IH.
Qed.

Lemma count_particles_agree pc pc' :
  population_agree pc pc' → count_particles pc = count_particles pc'.
Proof.
  intros [Hfin Hlev]. unfold count_particles. rewrite <- Hfin.
  apply foldl_ext_in. intros acc lev Hin. apply count_tiles_agree, Hlev.
  apply elem_of_seqZ in Hin. lia.
Qed.

Lemma all_particles_agree pc pc' :
  population_agree pc pc' →
  Forall2 particle_agree (all_particles pc) (all_particles pc').
Proof.
  intros [Hfin Hlev]. unfold all_particles, levels. rewrite <- Hfin.
  apply Forall2_bind, Forall_Forall2_diag, Forall_forall. intros lev Hin.
  apply Forall2_bind. eapply Forall2_impl.
  - apply Hlev. apply elem_of_seqZ in Hin. lia.
  - intros kv kv' Hkv. by apply tile_particles_agree.
Qed.

(** X1: a successful export replaces the content of its own file by a text
    that is the same whatever was on disk, leaves every other file and the
    writability of all names as they were, and prints one notice with the
    count and the file name. *)
Theorem export_replaces_only_its_file pc (nstep : Z) (w : World) :
  let n := Z.of_nat (particle_total pc) in
  particle_total pc ≠ 0 → (n ≤ Long.max_signed)%Z →
  writable w (vtkfile_name nstep) = true →
  ∃ w' text, WriteParticlesVTK show_Real pc nstep w = Some w'
    ∧ files w' !! vtkfile_name nstep = Some text
    ∧ (∀ w0, writable w0 (vtkfile_name nstep) = true →
         ∃ w0', WriteParticlesVTK show_Real pc nstep w0 = Some w0'
           ∧ files w0' !! vtkfile_name nstep = Some text)
    ∧ (∀ f, f ≠ vtkfile_name nstep → files w' !! f = files w !! f)
    ∧ writable w' = writable w
    ∧ stdout w' = stdout w ++
        ["WriteParticlesVTK: wrote " +:+ pretty n +:+ " particles to "
           +:+ vtkfile_name nstep +:+ endl].
Proof.
  intros n Hne Hmax Hopen.
  destruct (WriteParticlesVTK_writes show_Real pc nstep w Hne Hmax Hopen)
    as (w' & Hrun & Hfiles & Hout & Hwr).
  exists w'. eexists. split_and!; [done | | | | done | done].
  - rewrite Hfiles. apply lookup_insert_eq.
  - intros w0 Hopen0.
    destruct (WriteParticlesVTK_writes show_Real pc nstep w0 Hne Hmax Hopen0)
      as (w0' & Hrun0 & Hfiles0 & _).
    exists w0'. split; [done |]. rewrite Hfiles0. apply lookup_insert_eq.
  - intros f Hf. rewrite Hfiles. by apply lookup_insert_ne.
Qed.

(** X2: exporting the same population twice at the same step leaves the
    files as the first export left them: the second export overwrites the
    file with the same text, and prints the same notice again. *)
Theorem export_twice_same_files pc (nstep : Z) (w : World) :
  particle_total pc ≠ 0 →
  (Z.of_nat (particle_total pc) ≤ Long.max_signed)%Z →
  writable w (vtkfile_name nstep) = true →
  ∃ w1 w2 notice,
    WriteParticlesVTK show_Real pc nstep w = Some w1
    ∧ WriteParticlesVTK show_Real pc nstep w1 = Some w2
    ∧ files w2 = files w1
    ∧ stdout w2 = stdout w ++ [notice; notice].
Proof.
  intros Hne Hmax Hopen.
  destruct (WriteParticlesVTK_writes show_Real pc nstep w Hne Hmax Hopen)
    as (w1 & Hrun1 & Hfiles1 & Hout1 & Hwr1).
  destruct (WriteParticlesVTK_writes show_Real pc nstep w1 Hne Hmax)
    as (w2 & Hrun2 & Hfiles2 & Hout2 & _); [by rewrite Hwr1 |].
  exists w1, w2. eexists. split_and!; [done | done | |].
  - by rewrite Hfiles2, Hfiles1, insert_insert_eq.
  - by rewrite Hout2, Hout1, <- app_assoc.
Qed.

(** X3: the names written name the step: two different step indices give
    two different point-cloud file names and two different plotfile
    names. *)
Theorem export_names_differ_by_step (a b : Z) :
  a ≠ b →
  vtkfile_name a ≠ vtkfile_name b
  ∧ Concatenate "plt" a 5 ≠ Concatenate "plt" b 5.
Proof.
  intros Hab. split; intros Heq; apply Hab.
  - by apply vtkfile_name_inj.
  - by apply (Concatenate_inj "plt").
Qed.

(** X4: exports at two different steps do not disturb each other: after
    the export of one population at step [a] and of another at step [b],
    each of the two files holds the text of its own export. *)
Theorem exports_of_two_steps_coexist pc pc' (a b : Z) (w : World) :
  a ≠ b →
  particle_total pc ≠ 0 → (Z.of_nat (particle_total pc) ≤ Long.max_signed)%Z →
  particle_total pc' ≠ 0 → (Z.of_nat (particle_total pc') ≤ Long.max_signed)%Z →
  writable w (vtkfile_name a) = true → writable w (vtkfile_name b) = true →
  ∃ w1 w2,
    WriteParticlesVTK show_Real pc a w = Some w1
    ∧ WriteParticlesVTK show_Real pc' b w1 = Some w2
    ∧ is_Some (files w1 !! vtkfile_name a)
    ∧ files w2 !! vtkfile_name a = files w1 !! vtkfile_name a
    ∧ (∀ w0 w0', writable w0 (vtkfile_name b) = true →
         WriteParticlesVTK show_Real pc' b w0 = Some w0' →
         files w2 !! vtkfile_name b = files w0' !! vtkfile_name b).
Proof.
  intros Hab Hne Hmax Hne' Hmax' Hopa Hopb.
  destruct (WriteParticlesVTK_writes show_Real pc a w Hne Hmax Hopa)
    as (w1 & Hrun1 & Hfiles1 & _ & Hwr1).
  destruct (WriteParticlesVTK_writes show_Real pc' b w1 Hne' Hmax')
    as (w2 & Hrun2 & Hfiles2 & _); [by rewrite Hwr1 |].
  exists w1, w2. split_and!; [done | done | | |].
  - rewrite Hfiles1, lookup_insert_eq. by eexists.
  - rewrite Hfiles2. apply lookup_insert_ne. intros Heq.
    by apply vtkfile_name_inj in Heq.
  - intros w0 w0' Hop0 Hrun0.
    destruct (WriteParticlesVTK_writes show_Real pc' b w0 Hne' Hmax' Hop0)
      as (w0'' & Hrun0' & Hfiles0 & _).
    rewrite Hrun0 in Hrun0'. simplify_eq.
    by rewrite Hfiles2, Hfiles0, !lookup_insert_eq.
Qed.

(** X5: the export reads of a container only its finest level, the tiles of
    the levels from 0 up to it in their iteration order, of each tile the
    count and the particles below the count, and of each particle the
    position and the six attributes: two containers that agree on these
    give the same result. *)
Theorem export_reads_counted_particles_only pc pc' (nstep : Z) (w : World) :
  population_agree pc pc' →
  WriteParticlesVTK show_Real pc nstep w
  = WriteParticlesVTK show_Real pc' nstep w.
Proof.
  intros Hagree. unfold WriteParticlesVTK.
  rewrite (count_particles_agree pc pc' Hagree).
  rewrite !collect_particles_host.
  by rewrite (host_of_agree _ _ (all_particles_agree pc pc' Hagree)).
Qed.

(** X6: a container whose finest level is below 0 has no level to walk: the
    export prints the notice that there is nothing to write and touches no
    file, whatever tiles the container holds. *)
Theorem negative_finest_level_skips_export pc (nstep : Z) (w : World) :
  (finestLevel pc < 0)%Z →
  WriteParticlesVTK show_Real pc nstep w
  = Some (Print ("WriteParticlesVTK: no particles to write." +:+ endl) w)
  ∧ files (Print ("WriteParticlesVTK: no particles to write." +:+ endl) w)
    = files w.
Proof.
  intros Hneg. split; [| done]. unfold WriteParticlesVTK, count_particles.
  by rewrite seqZ_nil by lia.
Qed.

(** X7: a finer level adds its particles behind those of the levels below:
    with the finest level raised by one, each host vector is the vector of
    before followed by the new level's particles in tile and in-tile order,
    so the rows of the particles of before keep their indices. *)
Theorem finer_level_appends_rows (tiles : Z → ParticleLevel Real) (L : Z) :
  (-1 ≤ L)%Z →
  collect_particles (mkPC (L + 1) tiles)
  = collect_tiles (tiles (L + 1)%Z) (collect_particles (mkPC L tiles))
  ∧ collect_particles (mkPC (L + 1) tiles)
    = host_of (all_particles (mkPC L tiles)
                 ++ (kv ← tiles (L + 1)%Z; tile_particles kv.2))
  ∧ xs (collect_particles (mkPC L tiles))
      `prefix_of` xs (collect_particles (mkPC (L + 1) tiles)).
Proof.
  intros HL.
  assert (collect_particles (mkPC (L + 1) tiles)
          = collect_tiles (tiles (L + 1)%Z) (collect_particles (mkPC L tiles)))
    as Hstep.
  { unfold collect_particles. cbn [finestLevel GetParticles].
    replace (L + 1 + 1)%Z with (Z.of_nat (S (Z.to_nat (L + 1)))) by lia.
    rewrite seqZ_S, foldl_app, Z2Nat.id by lia. simpl.
    by rewrite Z.add_0_l. }
  assert (collect_particles (mkPC (L + 1) tiles)
          = host_of (all_particles (mkPC L tiles)
                       ++ (kv ← tiles (L + 1)%Z; tile_particles kv.2)))
    as Hhost.
  { by rewrite Hstep, collect_particles_host, collect_tiles_host. }
  split_and!; [done | done |].
  rewrite Hhost, collect_particles_host. cbn [host_of xs].
  rewrite fmap_app. by apply prefix_app_r.
Qed.

End ParticlesVTK_more.

Section FileLayout.
Context {Real : Type} (show_Real : Real → string).
Implicit Types (pc : MDParticleContainer Real).

(** X8: when the text form of a real holds no line break, the file of n
    particles splits at its line breaks into 8n + 27 lines: the four header
    lines, the POINTS declaration at line 4 (counting from 0), the VERTICES
    declaration at line n + 6 and the POINT_DATA declaration at line
    2n + 8. *)
Theorem vtk_file_line_layout pc (nstep : Z) (w : World) :
  let n := particle_total pc in
  (∀ r, newline_free (show_Real r) = true) →
  n ≠ 0 → (Z.of_nat n ≤ Long.max_signed)%Z →
  writable w (vtkfile_name nstep) = true →
  ∃ w' text, WriteParticlesVTK show_Real pc nstep w = Some w'
    ∧ files w' !! vtkfile_name nstep = Some text
    ∧ length (lines text) = 8 * n + 27
    ∧ take 4 (lines text) = header_lines
    ∧ lines text !! 4
      = Some ("POINTS " +:+ pretty (Z.of_nat n) +:+ " double")
    ∧ lines text !! (n + 6)
      = Some ("VERTICES " +:+ pretty (Z.of_nat n) +:+ " "
                +:+ pretty (Long.mul 2 (Z.of_nat n)))
    ∧ lines text !! (2 * n + 8) = Some ("POINT_DATA " +:+ pretty (Z.of_nat n)).
Proof.
  intros n Hline Hne Hmax Hopen.
  destruct (WriteParticlesVTK_writes show_Real pc nstep w Hne Hmax Hopen)
    as (w' & Hrun & Hfiles & _).
  exists w'. eexists. split; [done |].
  split; [rewrite Hfiles; apply lookup_insert_eq |].
  rewrite lines_unlines by (by apply newline_free_vtk_lines).
  pose proof (length_all_particles pc) as Hlen. subst n.
  rewrite <- Hlen. split_and!.
  - apply length_vtk_lines.
  - done.
  - done.
  - unfold vtk_lines. rewrite lookup_app_r by (simpl; lia).
    rewrite lookup_app_r by (rewrite length_points_block; simpl; lia).
    rewrite length_points_block. change (length header_lines) with 4.
    replace (_ - _ - _) with 0 by lia. done.
  - unfold vtk_lines. rewrite lookup_app_r by (simpl; lia).
    rewrite lookup_app_r by (rewrite length_points_block; simpl; lia).
    rewrite lookup_app_r
      by (rewrite length_points_block, length_vertices_block; simpl; lia).
    rewrite length_points_block, length_vertices_block, Nat2Z.id.
    change (length header_lines) with 4.
    replace (_ - _ - _ - _) with 0 by lia. done.
Qed.

(** X9: under the same condition, the particle at index i of the level,
    tile and in-tile order has its position on line 5 + i, its cell on line
    n + 7 + i, and its attribute of slot j (0 for vx up to 5 for az) on line
    2n + 11 + j (n + 3) + i of the file. *)
Theorem vtk_file_particle_rows pc (nstep : Z) (w : World)
    (i : nat) (p : ParticleType Real) :
  let n := particle_total pc in
  (∀ r, newline_free (show_Real r) = true) →
  (Z.of_nat n ≤ Long.max_signed)%Z →
  writable w (vtkfile_name nstep) = true →
  all_particles pc !! i = Some p →
  ∃ w' text, WriteParticlesVTK show_Real pc nstep w = Some w'
    ∧ files w' !! vtkfile_name nstep = Some text
    ∧ lines text !! (5 + i)
      = Some (show_Real (pos p 0) +:+ " " +:+ show_Real (pos p 1) +:+ " "
                +:+ show_Real (pos p 2))
    ∧ lines text !! (n + 7 + i) = Some ("1 " +:+ pretty (Z.of_nat i))
    ∧ (∀ j, j < 6 →
         lines text !! (2 * n + 11 + j * (n + 3) + i)
         = Some (show_Real (rdata p j))).
Proof.
  intros n Hline Hmax Hopen Hp.
  pose proof (length_all_particles pc) as Hlen. subst n.
  pose proof (lookup_lt_Some _ _ _ Hp) as Hi.
  destruct (WriteParticlesVTK_writes show_Real pc nstep w) as
    (w' & Hrun & Hfiles & _); [lia | done | done |].
  exists w'. eexists. split; [done |].
  split; [rewrite Hfiles; apply lookup_insert_eq |].
  rewrite lines_unlines by (by apply newline_free_vtk_lines).
  rewrite <- Hlen. split_and!.
  - unfold vtk_lines. rewrite lookup_app_r by (simpl; lia).
    rewrite lookup_app_l by (rewrite length_points_block; simpl; lia).
    change (length header_lines) with 4. unfold points_block.
    replace (5 + i - 4) with (S i) by lia. rewrite lookup_cons.
    rewrite lookup_app_l by (by rewrite length_fmap).
    by rewrite list_lookup_fmap, Hp.
  - unfold vtk_lines. rewrite lookup_app_r by (simpl; lia).
    rewrite lookup_app_r by (rewrite length_points_block; simpl; lia).
    rewrite lookup_app_l
      by (rewrite length_points_block, length_vertices_block; simpl; lia).
    rewrite length_points_block. change (length header_lines) with 4.
    unfold vertices_block.
    replace (_ - _ - _) with (S i) by lia. rewrite lookup_cons.
    rewrite lookup_app_l by (rewrite length_fmap, length_seqZ; lia).
    rewrite list_lookup_fmap, lookup_seqZ_lt by lia.
    by rewrite Z.add_0_l.
  - intros j Hj. by apply vtk_lines_scalar_row.
Qed.

End FileLayout.

(** ** What WritePlotFile hands to the two writers *)

Section PlotFile_more.
Context {Real Geometry DistributionMapping : Type}.
Context (Real_zero : Real) (Domain : Geometry → Box).
Context (DistributionMapping_of : BoxArray → DistributionMapping).
Implicit Types (pc : MDParticleContainer Real) (geom : list Geometry).

Local Abbreviation WritePlotFile :=
  (WritePlotFile Real_zero Domain DistributionMapping_of).

(** X10: for a geometry with a level, the grid plotfile is written first
    and the particle checkpoint second, both under the one name plt followed
    by the padded step index; the checkpoint is that of the container
    passed in, in the sub-directory particle0, with the checkpoint flag set
    and one name for each attribute slot, vx, vy, vz, ax, ay, az at the
    slots of the same name. *)
Theorem plotfile_then_checkpoint_in_one_bundle pc geom (nstep : Z) :
  1 ≤ length geom → (Z.of_nat (length geom) ≤ Int.max_signed)%Z →
  ∃ r nlevels mf varnames time level_steps ref_ratio names,
    WritePlotFile pc geom nstep = Some r
    ∧ calls r
      = [WriteMultiLevelPlotfile (Concatenate "plt" nstep 5) nlevels mf
           varnames geom time level_steps ref_ratio;
         Checkpoint pc (Concatenate "plt" nstep 5) "particle0" true names]
    ∧ length names = PIdx.ncomps
    ∧ names !! PIdx.vx = Some "vx" ∧ names !! PIdx.vy = Some "vy"
    ∧ names !! PIdx.vz = Some "vz" ∧ names !! PIdx.ax = Some "ax"
    ∧ names !! PIdx.ay = Some "ay" ∧ names !! PIdx.az = Some "az".
Proof.
  intros Hn Hmax. do 8 eexists.
  split; [by apply WritePlotFile_runs |]. by split_and!.
Qed.

(** X11: the arguments of the grid writer fit one another: the level count
    is the number of geometries, of field arrays and of step entries, and
    one more than the number of ratios; every step entry is the step index;
    the one variable name is dummy and every field array has one component,
    as many as there are names; the time is 0.0. *)
Theorem plotfile_arguments_fit pc geom (nstep : Z) :
  1 ≤ length geom → (Z.of_nat (length geom) ≤ Int.max_signed)%Z →
  ∃ r name nlevels mf varnames time level_steps ref_ratio call2,
    WritePlotFile pc geom nstep = Some r
    ∧ calls r
      = [WriteMultiLevelPlotfile name nlevels mf varnames geom time
           level_steps ref_ratio; call2]
    ∧ nlevels = Z.of_nat (length geom)
    ∧ nlevels = Z.of_nat (length mf)
    ∧ nlevels = Z.of_nat (length level_steps)
    ∧ nlevels = (Z.of_nat (length ref_ratio) + 1)%Z
    ∧ Forall (λ s, s = nstep) level_steps
    ∧ varnames = ["dummy"]
    ∧ Forall (λ m, ∃ f, m = Some f ∧ nComp f = Z.of_nat (length varnames)) mf
    ∧ time = Real_zero.
Proof.
  intros Hn Hmax. do 9 eexists.
  split; [by apply WritePlotFile_runs |].
  split_and!; try done.
  - by rewrite length_fmap.
  - by rewrite length_replicate.
  - rewrite length_replicate. lia.
  - by apply Forall_replicate.
  - apply Forall_fmap, Forall_true. intros g. by eexists.
Qed.

End PlotFile_more.

(** ** The further properties at the example population and geometry *)

(** X1 at the example: step 7 writes its file and no other. *)
Lemma export_replaces_only_its_file_witness :
  particle_total Example.pc ≠ 0
  ∧ (Z.of_nat (particle_total Example.pc) ≤ Long.max_signed)%Z
  ∧ writable Example.world (vtkfile_name 7) = true
  ∧ ∃ w', WriteParticlesVTK pretty Example.pc 7 Example.world = Some w'
      ∧ is_Some (files w' !! vtkfile_name 7)
      ∧ files w' !! vtkfile_name 8 = None.
Proof.
  assert (particle_total Example.pc ≠ 0) as H1 by (by vm_compute).
  assert ((Z.of_nat (particle_total Example.pc) ≤ Long.max_signed)%Z) as H2
    by (by vm_compute).
  assert (writable Example.world (vtkfile_name 7) = true) as H3 by reflexivity.
  destruct (export_replaces_only_its_file pretty Example.pc 7 Example.world
              H1 H2 H3) as (w' & text & Hrun & Htext & _ & Hother & _).
  split_and!; [exact H1 | exact H2 | exact H3 |].
  exists w'. split_and!; [exact Hrun | by rewrite Htext |].
  rewrite Hother; [reflexivity | by vm_compute].
Defined.

(** X2 at the example. *)
Lemma export_twice_same_files_witness :
  particle_total Example.pc ≠ 0
  ∧ (Z.of_nat (particle_total Example.pc) ≤ Long.max_signed)%Z
  ∧ writable Example.world (vtkfile_name 7) = true
  ∧ ∃ w1 w2, WriteParticlesVTK pretty Example.pc 7 Example.world = Some w1
      ∧ WriteParticlesVTK pretty Example.pc 7 w1 = Some w2
      ∧ files w2 = files w1 ∧ length (stdout w2) = 2.
Proof.
  assert (particle_total Example.pc ≠ 0) as H1 by (by vm_compute).
  assert ((Z.of_nat (particle_total Example.pc) ≤ Long.max_signed)%Z) as H2
    by (by vm_compute).
  assert (writable Example.world (vtkfile_name 7) = true) as H3 by reflexivity.
  destruct (export_twice_same_files pretty Example.pc 7 Example.world H1 H2 H3)
    as (w1 & w2 & notice & Hrun1 & Hrun2 & Hfiles & Hout).
  split_and!; [exact H1 | exact H2 | exact H3 |].
  exists w1, w2. split_and!; [exact Hrun1 | exact Hrun2 | exact Hfiles |].
  by rewrite Hout.
Defined.

(** X3 at steps 7 and 8. *)
Lemma export_names_differ_by_step_witness :
  7%Z ≠ 8%Z
  ∧ vtkfile_name 7 ≠ vtkfile_name 8
  ∧ Concatenate "plt" 7 5 ≠ Concatenate "plt" 8 5.
Proof.
  assert (7%Z ≠ 8%Z) as H1 by done.
  split; [exact H1 |]. exact (export_names_differ_by_step 7 8 H1).
Defined.

(** X4 at the example: step 7, then the empty-tiled variant at step 8. *)
Lemma exports_of_two_steps_coexist_witness :
  7%Z ≠ 8%Z
  ∧ particle_total Example.pc ≠ 0
  ∧ (Z.of_nat (particle_total Example.pc) ≤ Long.max_signed)%Z
  ∧ particle_total Example.pc_alt ≠ 0
  ∧ (Z.of_nat (particle_total Example.pc_alt) ≤ Long.max_signed)%Z
  ∧ writable Example.world (vtkfile_name 7) = true
  ∧ writable Example.world (vtkfile_name 8) = true
  ∧ ∃ w1 w2, WriteParticlesVTK pretty Example.pc 7 Example.world = Some w1
      ∧ WriteParticlesVTK pretty Example.pc_alt 8 w1 = Some w2
      ∧ is_Some (files w2 !! vtkfile_name 7).
Proof.
  assert (7%Z ≠ 8%Z) as H0 by done.
  assert (particle_total Example.pc ≠ 0) as H1 by (by vm_compute).
  assert ((Z.of_nat (particle_total Example.pc) ≤ Long.max_signed)%Z) as H2
    by (by vm_compute).
  assert (particle_total Example.pc_alt ≠ 0) as H3 by (by vm_compute).
  assert ((Z.of_nat (particle_total Example.pc_alt) ≤ Long.max_signed)%Z) as H4
    by (by vm_compute).
  assert (writable Example.world (vtkfile_name 7) = true) as H5 by reflexivity.
  assert (writable Example.world (vtkfile_name 8) = true) as H6 by reflexivity.
  destruct (exports_of_two_steps_coexist pretty Example.pc Example.pc_alt 7 8
              Example.world H0 H1 H2 H3 H4 H5 H6)
    as (w1 & w2 & Hrun1 & Hrun2 & Hsome & Hkeep & _).
  split_and!; [exact H0 | exact H1 | exact H2 | exact H3 | exact H4
              | exact H5 | exact H6 |].
  exists w1, w2. split_and!; [exact Hrun1 | exact Hrun2 |].
  by rewrite Hkeep.
Defined.

(** X5 at the example: the two ways of storing the population agree, and
    export alike. *)
Lemma export_reads_counted_particles_only_witness :
  population_agree Example.pc Example.pc_alt
  ∧ WriteParticlesVTK pretty Example.pc 7 Example.world
    = WriteParticlesVTK pretty Example.pc_alt 7 Example.world.
Proof.
  assert (∀ k : Z, particle_agree (Example.part k) (Example.part_alt k)) as Hp.
  { intros k. unfold particle_agree, Example.part, Example.part_alt.
    cbn [pos rdata]. split_and!; [done | done | done |].
    intros j Hj. unfold PIdx.ncomps in Hj. by rewrite decide_True by lia. }
  assert (∀ n first, tile_agree (Example.tile n first) (Example.tile_alt n first))
    as Ht.
  { intros n first. split; [reflexivity |]. cbn. intros i Hi.
    rewrite decide_True by lia. apply Hp. }
  assert (population_agree Example.pc Example.pc_alt) as H1.
  { split; [reflexivity |]. cbn [finestLevel Example.pc GetParticles].
    intros lev Hlev. unfold level_agree, Example.pc_alt. cbn [GetParticles].
    assert (lev = 0 ∨ lev = 1)%Z as [-> | ->] by lia.
    - rewrite !decide_True by done. constructor; [apply Ht | constructor].
    - rewrite !decide_False, decide_True by done.
      constructor; [apply Ht |]. constructor; [apply Ht | constructor]. }
  split; [exact H1 |].
  exact (export_reads_counted_particles_only pretty Example.pc Example.pc_alt
           7 Example.world H1).
Defined.

(** X6 at a container with tiles and finest level -1. *)
Lemma negative_finest_level_skips_export_witness :
  (finestLevel Example.pc_no_level < 0)%Z
  ∧ WriteParticlesVTK pretty Example.pc_no_level 7 Example.world
    = Some (Print ("WriteParticlesVTK: no particles to write." +:+ endl)
              Example.world).
Proof.
  assert ((finestLevel Example.pc_no_level < 0)%Z) as H1 by (by vm_compute).
  split; [exact H1 |].
  exact (proj1 (negative_finest_level_skips_export pretty Example.pc_no_level
                  7 Example.world H1)).
Defined.

(** X7 at the tiles of the variant population, raised from level 1 to 2. *)
Lemma finer_level_appends_rows_witness :
  (-1 ≤ 1)%Z
  ∧ xs (collect_particles (mkPC 1 (GetParticles Example.pc_alt)))
      `prefix_of`
    xs (collect_particles (mkPC (1 + 1) (GetParticles Example.pc_alt))).
Proof.
  assert ((-1 ≤ 1)%Z) as H1 by (by vm_compute).
  split; [exact H1 |].
  exact (proj2 (proj2 (finer_level_appends_rows
                         (GetParticles Example.pc_alt) 1 H1))).
Defined.

(** X8 at the example: 51 lines. *)
Lemma vtk_file_line_layout_witness :
  (∀ r : Z, newline_free (pretty r) = true)
  ∧ particle_total Example.pc ≠ 0
  ∧ (Z.of_nat (particle_total Example.pc) ≤ Long.max_signed)%Z
  ∧ writable Example.world (vtkfile_name 7) = true
  ∧ ∃ w' text, WriteParticlesVTK pretty Example.pc 7 Example.world = Some w'
      ∧ files w' !! vtkfile_name 7 = Some text
      ∧ length (lines text) = 51
      ∧ lines text !! 9 = Some "VERTICES 3 6".
Proof.
  assert (∀ r : Z, newline_free (pretty r) = true) as H0
    by exact newline_free_pretty_Z.
  assert (particle_total Example.pc ≠ 0) as H1 by (by vm_compute).
  assert ((Z.of_nat (particle_total Example.pc) ≤ Long.max_signed)%Z) as H2
    by (by vm_compute).
  assert (writable Example.world (vtkfile_name 7) = true) as H3 by reflexivity.
  destruct (vtk_file_line_layout pretty Example.pc 7 Example.world H0 H1 H2 H3)
    as (w' & text & Hrun & Htext & Hlen & _ & _ & Hvert & _).
  split_and!; [exact H0 | exact H1 | exact H2 | exact H3 |].
  exists w', text. split_and!; [exact Hrun | exact Htext | exact Hlen |].
  exact Hvert.
Defined.

(** X9 at the example: the third particle, index 2. *)
Lemma vtk_file_particle_rows_witness :
  (∀ r : Z, newline_free (pretty r) = true)
  ∧ (Z.of_nat (particle_total Example.pc) ≤ Long.max_signed)%Z
  ∧ writable Example.world (vtkfile_name 7) = true
  ∧ all_particles Example.pc !! 2 = Some (Example.part 7)
  ∧ ∃ w' text, WriteParticlesVTK pretty Example.pc 7 Example.world = Some w'
      ∧ files w' !! vtkfile_name 7 = Some text
      ∧ lines text !! 7 = Some "70 71 72"
      ∧ lines text !! 12 = Some "1 2"
      ∧ lines text !! 49 = Some "705".
Proof.
  assert (∀ r : Z, newline_free (pretty r) = true) as H0
    by exact newline_free_pretty_Z.
  assert ((Z.of_nat (particle_total Example.pc) ≤ Long.max_signed)%Z) as H2
    by (by vm_compute).
  assert (writable Example.world (vtkfile_name 7) = true) as H3 by reflexivity.
  assert (all_particles Example.pc !! 2 = Some (Example.part 7)) as H4
    by reflexivity.
  destruct (vtk_file_particle_rows pretty Example.pc 7 Example.world 2
              (Example.part 7) H0 H2 H3 H4)
    as (w' & text & Hrun & Htext & Hpos & Hcell & Hattr).
  split_and!; [exact H0 | exact H2 | exact H3 | exact H4 |].
  exists w', text.
  split_and!; [exact Hrun | exact Htext | exact Hpos | exact Hcell |].
  apply (Hattr 5). lia.
Defined.

(** X10 at the two-level example geometry. *)
Lemma plotfile_then_checkpoint_in_one_bundle_witness :
  1 ≤ length Example.geom
  ∧ (Z.of_nat (length Example.geom) ≤ Int.max_signed)%Z
  ∧ ∃ r call1 names,
      WritePlotFile 0%Z id Example.dmap Example.pc_empty Example.geom 7 = Some r
      ∧ calls r
        = [call1; Checkpoint Example.pc_empty "plt00007" "particle0" true names]
      ∧ names !! PIdx.az = Some "az".
Proof.
  assert (1 ≤ length Example.geom) as H1 by (vm_compute; lia).
  assert ((Z.of_nat (length Example.geom) ≤ Int.max_signed)%Z) as H2
    by (by vm_compute).
  destruct (plotfile_then_checkpoint_in_one_bundle 0%Z id Example.dmap
              Example.pc_empty Example.geom 7 H1 H2)
    as (r & nl & mf & vars & time & steps & ratio & names & Hrun & Hcalls
        & _ & _ & _ & _ & _ & _ & Haz).
  split_and!; [exact H1 | exact H2 |].
  exists r. eexists. exists names.
  split_and!; [exact Hrun | exact Hcalls | exact Haz].
Defined.

(** X11 at the two-level example geometry. *)
Lemma plotfile_arguments_fit_witness :
  1 ≤ length Example.geom
  ∧ (Z.of_nat (length Example.geom) ≤ Int.max_signed)%Z
  ∧ ∃ r name mf time ref_ratio call2,
      WritePlotFile 0%Z id Example.dmap Example.pc Example.geom 7 = Some r
      ∧ calls r
        = [WriteMultiLevelPlotfile name 2 mf ["dummy"] Example.geom time
             [7%Z; 7%Z] ref_ratio; call2]
      ∧ length mf = 2 ∧ length ref_ratio = 1.
Proof.
  assert (1 ≤ length Example.geom) as H1 by (vm_compute; lia).
  assert ((Z.of_nat (length Example.geom) ≤ Int.max_signed)%Z) as H2
    by (by vm_compute).
  destruct (plotfile_arguments_fit 0%Z id Example.dmap Example.pc
              Example.geom 7 H1 H2)
    as (r & name & nl & mf & vars & time & steps & ratio & call2 & Hrun
        & Hcalls & Hnl & Hmf & Hsteps & Hratio & Hall & Hvars & _).
  split_and!; [exact H1 | exact H2 |].
  exists r, name, mf, time, ratio, call2.
  assert (nl = 2%Z) as -> by exact Hnl.
  assert (steps = [7%Z; 7%Z]) as ->.
  { destruct steps as [|s1 [|s2 [|s3 steps]]]; simpl in Hsteps; try lia.
    apply Forall_cons in Hall as [-> Hall].
    by apply Forall_cons in Hall as [-> _]. }
  split_and!; [exact Hrun | by rewrite Hcalls, Hvars | lia | lia].
Defined.
